(** * Exa MCP server: a shallow embedding of [server.py] and [test_connection.py]

    The development has two parts.  The first part translates the program:
    Python values ([PyStr], [Float64], [PyDate]), the tool handlers and the
    dispatcher of [server.py] ([Server]), and the connection test suite of
    [test_connection.py] ([TestConnection]).  The second part states and
    proves the properties of those definitions.

    Conventions.
    - A Python [str] is the list of its code points, so [len] and slicing
      count characters as Python does.  Literals are written [py "..."] and
      hold exactly the characters of the source literal.
    - A Python [float] is an IEEE 754 binary64 value ([spec_float]); [float()],
      [repr] and the [.3f] format are computed exactly, by integer arithmetic.
    - A Python [dict] is a [gmap]; a missing key is [None] of [!!].
    - Exceptions are values: a computation of type [M A] returns either a
      raised exception or a result, together with the requests it sent to the
      Exa service. *)

From Stdlib Require Import ZArith NArith Lia Strings.String Strings.Byte Floats.SpecFloat.
From stdpp Require Import base option list gmap.

Set Default Proof Using "Type".

(* ===================================================================== *)
(** * Part I: the program *)
(* ===================================================================== *)

(** ** Python strings *)

Module PyStr.

(** A string is the sequence of its Unicode code points. *)
Definition pystr : Type := list N.

(** Decoder for the literals of this file (UTF-8, as the source file is). *)
Fixpoint utf8_decode (bs : list N) (fuel : nat) : pystr :=
  match fuel, bs with
  | S fuel, b0 :: r0 =>
    if (b0 <? 0x80)%N then b0 :: utf8_decode r0 fuel
    else match r0 with
    | b1 :: r1 =>
      if (b0 <? 0xE0)%N then ((b0 - 0xC0) * 64 + (b1 - 0x80))%N :: utf8_decode r1 fuel
      else match r1 with
      | b2 :: r2 =>
        if (b0 <? 0xF0)%N
        then ((b0 - 0xE0) * 4096 + (b1 - 0x80) * 64 + (b2 - 0x80))%N :: utf8_decode r2 fuel
        else match r2 with
        | b3 :: r3 =>
          ((b0 - 0xF0) * 262144 + (b1 - 0x80) * 4096 + (b2 - 0x80) * 64 + (b3 - 0x80))%N
            :: utf8_decode r3 fuel
        | [] => []
        end
      | [] => []
      end
    | [] => []
    end
  | _, _ => []
  end.

Definition py (s : string) : pystr :=
  let bs := map Byte.to_N (list_byte_of_string s) in utf8_decode bs (length bs).

(** The newline of the source's ["\n"]. *)
Definition NL : pystr := [10%N].

(** [len(s)] *)
Definition len (s : pystr) : Z := Z.of_nat (length s).

(** [s[:n]] for a literal [n >= 0]. *)
Definition slice_to (n : nat) (s : pystr) : pystr := take n s.

(** [s1 == s2] *)
Fixpoint eqb (s1 s2 : pystr) : bool :=
  match s1, s2 with
  | [], [] => true
  | c1 :: r1, c2 :: r2 => (c1 =? c2)%N && eqb r1 r2
  | _, _ => false
  end.

(** Truth value of a string: non-empty. *)
Definition truthy (s : pystr) : bool :=
  match s with [] => false | _ => true end.

(** [str.isspace] on one character: the code points CPython's
    [Py_UNICODE_ISSPACE] accepts. *)
Definition isspace (c : N) : bool :=
  ((0x09 <=? c) && (c <=? 0x0D) || (0x1C <=? c) && (c <=? 0x20)
   || (c =? 0x85) || (c =? 0xA0) || (c =? 0x1680)
   || (0x2000 <=? c) && (c <=? 0x200A)
   || (c =? 0x2028) || (c =? 0x2029) || (c =? 0x202F) || (c =? 0x205F)
   || (c =? 0x3000))%N.

Fixpoint lstrip (s : pystr) : pystr :=
  match s with
  | c :: r => if isspace c then lstrip r else s
  | [] => []
  end.

Definition rstrip (s : pystr) : pystr := rev (lstrip (rev s)).

(** [s.strip()] *)
Definition strip (s : pystr) : pystr := rstrip (lstrip s).

(** [s.startswith(p)] *)
Fixpoint startswith (p s : pystr) : bool :=
  match p, s with
  | [], _ => true
  | c :: p', d :: s' => (c =? d)%N && startswith p' s'
  | _ :: _, [] => false
  end.

(** [needle in hay] *)
Fixpoint contains (needle hay : pystr) : bool :=
  startswith needle hay ||
  match hay with
  | [] => false
  | _ :: hay' => contains needle hay'
  end.

(** Decimal digits of a non-negative integer, most significant first. *)
Fixpoint digits_acc (fuel : nat) (n : Z) (acc : pystr) : pystr :=
  match fuel with
  | O => acc
  | S fuel =>
    let acc' := Z.to_N (48 + n mod 10) :: acc in
    if (n <? 10)%Z then acc' else digits_acc fuel (n / 10) acc'
  end.

Definition digits (n : Z) : pystr := digits_acc (S (Z.to_nat (Z.log2 n))) n [].

(** [str(n)] for an [int]. *)
Definition str_of_Z (n : Z) : pystr :=
  if (n <? 0)%Z then py "-" ++ digits (- n) else digits n.

(** [str(n).zfill(w)]-style left padding with zeros, for [n >= 0]. *)
Definition zero_pad (w : nat) (n : Z) : pystr :=
  let d := digits n in replicate (w - length d) 48%N ++ d.

End PyStr.

(** ** Python floats *)

Module Float64.
Import PyStr.
Local Open Scope Z_scope.

(** A [float] is a binary64 value.  A finite [S754_finite s m e] stands for
    [(-1)^s * m * 2^e]; the functions below produce it in canonical form
    ([m < 2^53], [-1074 <= e <= 971], and [2^52 <= m] unless [e = -1074]). *)
Definition float : Type := spec_float.

(** Structural equality of canonical values. *)
Definition same (f g : float) : bool :=
  match f, g with
  | S754_zero s, S754_zero t => Bool.eqb s t
  | S754_infinity s, S754_infinity t => Bool.eqb s t
  | S754_nan, S754_nan => true
  | S754_finite s m e, S754_finite t n k => Bool.eqb s t && (m =? n)%positive && (e =? k)
  | _, _ => false
  end.

(** [p / q] rounded to the nearest integer, ties to even ([0 <= p], [0 < q]). *)
Definition div_half_even (p q : Z) : Z :=
  let m := p / q in
  match 2 * (p mod q) ?= q with
  | Lt => m
  | Gt => m + 1
  | Eq => if Z.even m then m else m + 1
  end.

(** [floor (log2 (p / q))] for [0 < p], [0 < q]. *)
Definition ilog2_ratio (p q : Z) : Z :=
  let l := Z.log2 p - Z.log2 q in
  let below := if 0 <=? l then p <? q * 2 ^ l else p * 2 ^ (- l) <? q in
  if below then l - 1 else l.

(** The binary64 value nearest to [p / q] (ties to even), with the sign
    [neg]; an infinity when the rounded value exceeds the largest float. *)
Definition round_ratio (neg : bool) (p q : Z) : float :=
  if p =? 0 then S754_zero neg else
  let e := Z.max (ilog2_ratio p q - 52) (-1074) in
  let m := if 0 <=? e then div_half_even p (q * 2 ^ e)
           else div_half_even (p * 2 ^ (- e)) q in
  let '(m, e) := if m =? 2 ^ 53 then (2 ^ 52, e + 1) else (m, e) in
  if m =? 0 then S754_zero neg
  else if 971 <? e then S754_infinity neg
  else S754_finite neg (Z.to_pos m) e.

(** The binary64 value nearest to [p * 10^k]. *)
Definition round_decimal (neg : bool) (p k : Z) : float :=
  if 0 <=? k then round_ratio neg (p * 10 ^ k) 1 else round_ratio neg p (10 ^ (- k)).

(** [float(z)] for an [int]: [None] stands for [OverflowError]. *)
Definition of_int (z : Z) : option float :=
  match round_ratio (z <? 0) (Z.abs z) 1 with
  | S754_infinity _ => None
  | f => Some f
  end.

(** *** [float(s)] for a [str] *)

(** First code points of the runs [0..9] of Unicode decimal digits
    (general category Nd, Unicode 14.0 as shipped with CPython 3.11). *)
Definition decimal_runs : list N :=
  [ 0x30; 0x660; 0x6f0; 0x7c0; 0x966; 0x9e6; 0xa66; 0xae6; 0xb66; 0xbe6; 0xc66;
    0xce6; 0xd66; 0xde6; 0xe50; 0xed0; 0xf20; 0x1040; 0x1090; 0x17e0; 0x1810;
    0x1946; 0x19d0; 0x1a80; 0x1a90; 0x1b50; 0x1bb0; 0x1c40; 0x1c50; 0xa620;
    0xa8d0; 0xa900; 0xa9d0; 0xa9f0; 0xaa50; 0xabf0; 0xff10; 0x104a0; 0x10d30;
    0x11066; 0x110f0; 0x11136; 0x111d0; 0x112f0; 0x11450; 0x114d0; 0x11650;
    0x116c0; 0x11730; 0x118e0; 0x11950; 0x11c50; 0x11d50; 0x11da0; 0x16a60;
    0x16ac0; 0x16b50; 0x1d7ce; 0x1d7d8; 0x1d7e2; 0x1d7ec; 0x1d7f6; 0x1e140;
    0x1e2f0; 0x1e950; 0x1fbf0 ]%N.

(** [Py_UNICODE_TODECIMAL] *)
Definition decimal_value (c : N) : option N :=
  match List.find (fun s => (s <=? c) && (c <? s + 10))%N decimal_runs with
  | Some s => Some (c - s)%N
  | None => None
  end.

(** One character of [_PyUnicode_TransformDecimalAndSpaceToASCII]: ASCII is
    kept, a Unicode space becomes a blank, a Unicode decimal digit its ASCII
    digit, anything else a question mark. *)
Definition to_ascii (c : N) : N :=
  if (c <? 127)%N then c
  else if isspace c then 32%N
  else match decimal_value c with
       | Some d => (48 + d)%N
       | None => 63%N
       end.

Definition isdigit (c : N) : bool := ((48 <=? c) && (c <=? 57))%N.

(** [Py_ISSPACE]: the six ASCII blanks. *)
Definition ascii_isspace (c : N) : bool := ((9 <=? c) && (c <=? 13) || (c =? 32))%N.

(** Underscores of a numeric literal: each must stand between two digits;
    they are dropped.  [prev] is the character before [s]. *)
Fixpoint drop_underscores (prev : N) (s : list N) : option (list N) :=
  match s with
  | [] => if (prev =? 95)%N then None else Some []
  | c :: r =>
    if (c =? 95)%N then
      if isdigit prev then drop_underscores c r else None
    else if (prev =? 95)%N && negb (isdigit c) then None
    else option_map (cons c) (drop_underscores c r)
  end.

Fixpoint lstrip_ascii (s : list N) : list N :=
  match s with
  | c :: r => if ascii_isspace c then lstrip_ascii r else s
  | [] => []
  end.

Definition strip_ascii (s : list N) : list N := rev (lstrip_ascii (rev (lstrip_ascii s))).

(** The leading digits of [s] and what follows them. *)
Fixpoint span_digits (s : list N) : list N * list N :=
  match s with
  | c :: r => if isdigit c then let '(d, t) := span_digits r in (c :: d, t) else ([], s)
  | [] => ([], [])
  end.

(** Value of a digit string. *)
Definition digits_value (d : list N) : Z :=
  fold_left (fun acc c => acc * 10 + (Z.of_N c - 48)) d 0.

Definition lower (c : N) : N := if ((65 <=? c) && (c <=? 90))%N then (c + 32)%N else c.

(** An optional sign: whether it is a minus, and the rest. *)
Definition take_sign (s : list N) : bool * list N :=
  match s with
  | 45%N :: r => (true, r)
  | 43%N :: r => (false, r)
  | _ => (false, s)
  end.

(** The exponent part: empty, or [e] or [E], an optional sign and digits. *)
Definition parse_exponent (s : list N) : option Z :=
  match s with
  | [] => Some 0
  | c :: r =>
    if (lower c =? 101)%N then
      let '(neg, r) := take_sign r in
      match span_digits r with
      | ((_ :: _) as d, []) => Some (if neg : bool then - digits_value d else digits_value d)
      | _ => None
      end
    else None
  end.

(** A whole float literal without blanks: [None] when it is not one. *)
Definition parse_literal (s : list N) : option float :=
  let '(neg, u) := take_sign s in
  let l := map lower u in
  if PyStr.eqb l (py "inf") || PyStr.eqb l (py "infinity") then Some (S754_infinity neg)
  else if PyStr.eqb l (py "nan") then Some S754_nan
  else
    let '(ip, t) := span_digits u in
    let '(fp, t) := match t with
                    | 46%N :: t' => span_digits t'
                    | _ => ([], t)
                    end in
    match ip ++ fp with
    | [] => None
    | ds =>
      match parse_exponent t with
      | Some ex => Some (round_decimal neg (digits_value ds) (ex - Z.of_nat (length fp)))
      | None => None
      end
    end.

(** [float(s)]: [None] stands for [ValueError]. *)
Definition of_str (s : pystr) : option float :=
  if existsb (N.eqb 0) s then None else
  match drop_underscores 0%N (map to_ascii s) with
  | Some t => parse_literal (strip_ascii t)
  | None => None
  end.

(** *** [format(f, ".3f")] *)

Definition sign_str (neg : bool) : pystr := if neg then py "-" else [].

(** Fixed notation with three decimals, correctly rounded (ties to even on
    the exact binary value). *)
Definition format_3f (f : float) : pystr :=
  match f with
  | S754_nan => py "nan"
  | S754_infinity s => sign_str s ++ py "inf"
  | S754_zero s => sign_str s ++ py "0.000"
  | S754_finite s m e =>
    let n := if 0 <=? e then Z.pos m * 2 ^ e * 1000
             else div_half_even (Z.pos m * 1000) (2 ^ (- e)) in
    sign_str s ++ digits (n / 1000) ++ py "." ++ zero_pad 3 (n mod 1000)
  end.

(** *** [repr(f)] *)

(** Whether [10^k <= p / q]. *)
Definition ge_pow10 (p q k : Z) : bool :=
  if 0 <=? k then q * 10 ^ k <=? p else q <=? p * 10 ^ (- k).

Fixpoint pow10_down (fuel : nat) (p q k : Z) : Z :=
  match fuel with
  | O => k
  | S fuel => if ge_pow10 p q k then k else pow10_down fuel p q (k - 1)
  end.

Fixpoint pow10_up (fuel : nat) (p q k : Z) : Z :=
  match fuel with
  | O => k
  | S fuel => if ge_pow10 p q (k + 1) then pow10_up fuel p q (k + 1) else k
  end.

(** [floor (log10 (p / q))], from the binary logarithm and a short search. *)
Definition ilog10_ratio (p q : Z) : Z :=
  let k0 := ilog2_ratio p q * 30103 / 100000 in
  pow10_up 4 p q (pow10_down 4 p q k0).

(** Trailing zeros of a digit string are dropped. *)
Definition strip_zeros (d : pystr) : pystr :=
  let fix go (r : pystr) : pystr :=
    match r with
    | 48%N :: r' => go r'
    | _ => r
    end in
  rev (go (rev d)).

(** The shortest digit string that reads back as [m * 2^e], tried with
    [n], [n+1], ... digits; with two candidates of one length the nearer
    wins, the even one on a tie.  Returns the digits and the position of
    the decimal point. *)
Fixpoint shortest_digits (fuel : nat) (n : Z) (m : positive) (e k : Z) : pystr * Z :=
  match fuel with
  | O => ([], k)
  | S fuel =>
    let '(p, q) := if 0 <=? e then (Z.pos m * 2 ^ e, 1) else (Z.pos m, 2 ^ (- e)) in
    let ex := k - n in
    let '(P, Q) := if 0 <=? ex then (p, q * 10 ^ ex) else (p * 10 ^ (- ex), q) in
    let lo := P / Q in
    let hi := lo + 1 in
    let back c := same (round_decimal false c ex) (S754_finite false m e) in
    let ok_lo := (0 <? lo) && back lo in
    let ok_hi := back hi in
    let pick := if ok_lo && ok_hi then
                  match 2 * (P mod Q) ?= Q with
                  | Lt => Some lo
                  | Gt => Some hi
                  | Eq => Some (if Z.even lo then lo else hi)
                  end
                else if ok_lo then Some lo
                else if ok_hi then Some hi
                else None in
    match pick with
    | Some c =>
      let ds := digits c in
      (strip_zeros ds, if n <? Z.of_nat (length ds) then k + 1 else k)
    | None => shortest_digits fuel (n + 1) m e k
    end
  end.

(** [repr(f)], which is also [str(f)]. *)
Definition repr (f : float) : pystr :=
  match f with
  | S754_nan => py "nan"
  | S754_infinity s => sign_str s ++ py "inf"
  | S754_zero s => sign_str s ++ py "0.0"
  | S754_finite s m e =>
    let '(p, q) := if 0 <=? e then (Z.pos m * 2 ^ e, 1) else (Z.pos m, 2 ^ (- e)) in
    let '(ds, decpt) := shortest_digits 17 1 m e (ilog10_ratio p q + 1) in
    let nd := Z.of_nat (length ds) in
    if (-4 <? decpt) && (decpt <=? 16) then
      if decpt <=? 0 then
        sign_str s ++ py "0." ++ replicate (Z.to_nat (- decpt)) 48%N ++ ds
      else if nd <=? decpt then
        sign_str s ++ ds ++ replicate (Z.to_nat (decpt - nd)) 48%N ++ py ".0"
      else
        sign_str s ++ take (Z.to_nat decpt) ds ++ py "." ++ drop (Z.to_nat decpt) ds
    else
      let x := decpt - 1 in
      sign_str s ++ take 1 ds ++ (if 1 <? nd then py "." ++ drop 1 ds else [])
        ++ py "e" ++ (if x <? 0 then py "-" else py "+") ++ zero_pad 2 (Z.abs x)
  end.

End Float64.

(** ** Python values and exceptions *)

Module Py.
Import PyStr.
Local Open Scope Z_scope.

(** The exception classes the program distinguishes.  An exception stands
    under the nearest class listed here that it is an instance of;
    [OtherError] is any further subclass of [Exception]. *)
Inductive exn_class : Type :=
| ValueError
| TypeError
| KeyError
| AttributeError
| OverflowError
| ImportError
| OtherError.

(** An exception: its class and [str(e)]. *)
Record exn : Type := Exn { exn_cls : exn_class; exn_str : pystr }.

(** The JSON scalars: values of tool arguments and of result attributes. *)
Inductive pyval : Type :=
| PNone
| PBool (b : bool)
| PInt (z : Z)
| PFloat (f : Float64.float)
| PStr (s : pystr).

(** [type(v).__name__] *)
Definition type_name (v : pyval) : pystr :=
  match v with
  | PNone => py "NoneType"
  | PBool _ => py "bool"
  | PInt _ => py "int"
  | PFloat _ => py "float"
  | PStr _ => py "str"
  end.

(** [str(v)], which is also what an f-string field [{v}] renders. *)
Definition py_str (v : pyval) : pystr :=
  match v with
  | PNone => py "None"
  | PBool true => py "True"
  | PBool false => py "False"
  | PInt z => str_of_Z z
  | PFloat f => Float64.repr f
  | PStr s => s
  end.

(** The outcome of [float(v)]: a float, or the exception it raises. *)
Inductive float_result : Type :=
| FloatOk (f : Float64.float)
| FloatValueError
| FloatTypeError
| FloatOverflowError.

(** [float(v)] *)
Definition py_float (v : pyval) : float_result :=
  match v with
  | PNone => FloatTypeError
  | PBool b => FloatOk (if b then S754_finite false (2 ^ 52) (-52) else S754_zero false)
  | PInt z => match Float64.of_int z with Some f => FloatOk f | None => FloatOverflowError end
  | PFloat f => FloatOk f
  | PStr s => match Float64.of_str s with Some f => FloatOk f | None => FloatValueError end
  end.

(** [len(v)] *)
Definition py_len (v : pyval) : exn + Z :=
  match v with
  | PStr s => inr (len s)
  | _ => inl (Exn TypeError (py "object of type '" ++ type_name v ++ py "' has no len()"))
  end.

(** [v[:n]] for a literal [n >= 0] *)
Definition py_slice_to (n : nat) (v : pyval) : exn + pystr :=
  match v with
  | PStr s => inr (slice_to n s)
  | _ => inl (Exn TypeError (py "'" ++ type_name v ++ py "' object is not subscriptable"))
  end.

End Py.

(** ** Dates: the [datetime] module *)

Module PyDate.
Import PyStr Py.
Local Open Scope Z_scope.

Record datetime : Type := DateTime {
  year : Z; month : Z; day : Z;
  hour : Z; minute : Z; second : Z; microsecond : Z
}.

(** A [timedelta], normalised: [0 <= td_seconds < 86400] and
    [0 <= td_microseconds < 1000000]. *)
Record timedelta : Type := TimeDelta {
  td_days : Z; td_seconds : Z; td_microseconds : Z
}.

Definition MAXORDINAL : Z := 3652059.

Definition is_leap (y : Z) : bool :=
  (y mod 4 =? 0) && (negb (y mod 100 =? 0) || (y mod 400 =? 0)).

(** Number of days before January 1st of year [y]. *)
Definition days_before_year (y : Z) : Z :=
  let y := y - 1 in y * 365 + y / 4 - y / 100 + y / 400.

Definition DAYS_IN_MONTH : list Z := [31; 28; 31; 30; 31; 30; 31; 31; 30; 31; 30; 31].

Definition DAYS_BEFORE_MONTH : list Z :=
  [0; 31; 59; 90; 120; 151; 181; 212; 243; 273; 304; 334].

(** Entry for month [m] (from 1) of one of the two tables. *)
Definition month_entry (t : list Z) (m : Z) : Z := nth (Z.to_nat (m - 1)) t 0.

Definition days_in_month (y m : Z) : Z :=
  if (m =? 2) && is_leap y then 29 else month_entry DAYS_IN_MONTH m.

Definition days_before_month (y m : Z) : Z :=
  month_entry DAYS_BEFORE_MONTH m + (if (2 <? m) && is_leap y then 1 else 0).

(** [date(y, m, d).toordinal()]: January 1st of year 1 is day 1. *)
Definition ymd2ord (y m d : Z) : Z :=
  days_before_year y + days_before_month y m + d.

Definition DI400Y : Z := 146097.
Definition DI100Y : Z := 36524.
Definition DI4Y : Z := 1461.

(** [date.fromordinal(n)] as year, month and day. *)
Definition ord2ymd (n : Z) : Z * Z * Z :=
  let n := n - 1 in
  let n400 := n / DI400Y in
  let n := n mod DI400Y in
  let y := n400 * 400 + 1 in
  let n100 := n / DI100Y in
  let n := n mod DI100Y in
  let n4 := n / DI4Y in
  let n := n mod DI4Y in
  let n1 := n / 365 in
  let n := n mod 365 in
  let y := y + n100 * 100 + n4 * 4 + n1 in
  if (n1 =? 4) || (n100 =? 4) then (y - 1, 12, 31)
  else
    let leapyear := (n1 =? 3) && (negb (n4 =? 24) || (n100 =? 3)) in
    let m := Z.shiftr (n + 50) 5 in
    let preceding := month_entry DAYS_BEFORE_MONTH m
                     + (if (2 <? m) && leapyear then 1 else 0) in
    let '(m, preceding) :=
      if n <? preceding
      then (m - 1, preceding - (month_entry DAYS_IN_MONTH (m - 1)
                                + (if (m - 1 =? 2) && leapyear then 1 else 0)))
      else (m, preceding) in
    (y, m, n - preceding + 1).

(** A value [datetime.now()] can return. *)
Definition valid_datetime (t : datetime) : Prop :=
  1 <= year t <= 9999 /\ 1 <= month t <= 12 /\
  1 <= day t <= days_in_month (year t) (month t) /\
  0 <= hour t < 24 /\ 0 <= minute t < 60 /\ 0 <= second t < 60 /\
  0 <= microsecond t < 1000000.

Definition US_PER_DAY : Z := 86400000000.

(** Microseconds of [timedelta(days=f)] for a finite float [f]: the whole
    days are exact, the fraction of a day is multiplied in floating point,
    and the sum is rounded to a whole microsecond, ties to even. *)
Definition float_days_to_us (neg : bool) (m : positive) (e : Z) : Z :=
  let us :=
    if 0 <=? e then Z.pos m * 2 ^ e * US_PER_DAY
    else
      let q := 2 ^ (- e) in
      let whole := (Z.pos m / q) * US_PER_DAY in
      match Float64.round_ratio false (US_PER_DAY * (Z.pos m mod q)) q with
      | S754_finite _ m2 e2 =>
        if 0 <=? e2 then whole + Z.pos m2 * 2 ^ e2
        else Float64.div_half_even (whole * 2 ^ (- e2) + Z.pos m2) (2 ^ (- e2))
      | _ => whole
      end in
  if neg then - us else us.

(** A number of microseconds as a [timedelta]; the day count must fit a C
    [int] and the documented range. *)
Definition microseconds_to_delta (us : Z) : exn + timedelta :=
  let secs := us / 1000000 in
  let d := secs / 86400 in
  if (d <? - 2 ^ 31) || (2 ^ 31 <=? d) then
    inl (Exn OverflowError (py "Python int too large to convert to C int"))
  else if (d <? -999999999) || (999999999 <? d) then
    inl (Exn OverflowError
           (py "days=" ++ str_of_Z d ++ py "; must have magnitude <= 999999999"))
  else inr (TimeDelta d (secs mod 86400) (us mod 1000000)).

(** [timedelta(days=v)] *)
Definition timedelta_days (v : pyval) : exn + timedelta :=
  match v with
  | PInt n => microseconds_to_delta (n * US_PER_DAY)
  | PBool b => microseconds_to_delta ((if b then 1 else 0) * US_PER_DAY)
  | PFloat (S754_finite s m e) => microseconds_to_delta (float_days_to_us s m e)
  | PFloat (S754_zero _) => microseconds_to_delta 0
  | PFloat (S754_infinity _) =>
    inl (Exn OverflowError (py "cannot convert float infinity to integer"))
  | PFloat S754_nan => inl (Exn ValueError (py "cannot convert float NaN to integer"))
  | PNone | PStr _ =>
    inl (Exn TypeError
           (py "unsupported type for timedelta days component: " ++ type_name v))
  end.

(** [t - delta]: the fields are carried into each other, the date through
    its ordinal; a date outside the years 1..9999 is an [OverflowError]. *)
Definition datetime_sub (t : datetime) (delta : timedelta) : exn + datetime :=
  let us := microsecond t - td_microseconds delta in
  let s := second t - td_seconds delta + us / 1000000 in
  let mi := minute t + s / 60 in
  let h := hour t + mi / 60 in
  let n := ymd2ord (year t) (month t) (day t) - td_days delta + h / 24 in
  if (0 <? n) && (n <=? MAXORDINAL) then
    let '(y, m, d) := ord2ymd n in
    inr (DateTime y m d (h mod 24) (mi mod 60) (s mod 60) (us mod 1000000))
  else inl (Exn OverflowError (py "date value out of range")).

(** [t.strftime("%Y-%m-%d")]; [%Y] is the year without padding, as the C
    library renders it. *)
Definition strftime_Ymd (t : datetime) : pystr :=
  str_of_Z (year t) ++ py "-" ++ zero_pad 2 (month t) ++ py "-" ++ zero_pad 2 (day t).

End PyDate.

(** ** [server.py] *)

Module Server.
Import PyStr Py PyDate.
Local Open Scope Z_scope.

(** *** The Exa client and the world a call runs in *)

(** A result object returned by the Exa client.  The program reads every
    attribute through [getattr(obj, name, None)], so an attribute that is
    missing and one that is [None] are both [None] here ([PNone] for the
    score).  Title, URL, date and text are strings when present; the score
    is any scalar. *)
Record Result : Type := {
  r_title : option pystr;
  r_url : option pystr;
  r_score : pyval;
  r_published_date : option pystr;
  r_text : option pystr
}.

(** Keyword arguments of [exa.search]; [None] is a keyword not passed. *)
Record SearchArgs : Type := {
  query : pyval;
  num_results : pyval;
  start_published_date : option pystr;
  search_type : option pystr;
  use_autoprompt : option bool
}.

(** The three operations of the client that the program calls. *)
Inductive request : Type :=
| search (a : SearchArgs)
| get_contents (urls : list pyval) (text : bool)
| find_similar (url : pyval) (num_results : pyval).

(** [Exa(api_key)] *)
Record Exa : Type := { api_key : pystr }.

(** What a call observes: the process environment, the clock, and the Exa
    service, which answers a request made with a key by the [results] list
    or by raising. *)
Record World : Type := {
  environ : gmap pystr pystr;
  clock : datetime;
  exa_api : pystr -> request -> exn + list Result
}.

(** *** Computations *)

(** A pure computation: an exception or a value. *)
Definition Res (A : Type) : Type := exn + A.

(** A computation in a world: its outcome and the requests it sent to the
    Exa service, in order, each with the key it was sent with. *)
Definition M (A : Type) : Type := World -> Res A * list (pystr * request).

Definition ret {A : Type} (a : A) : M A := fun _ => (inr a, []).

Definition raise {A : Type} (e : exn) : M A := fun _ => (inl e, []).

Definition lift {A : Type} (r : Res A) : M A := fun _ => (r, []).

Definition bind {A B : Type} (m : M A) (k : A -> M B) : M B :=
  fun w =>
    match m w with
    | (inr a, t) => let '(r, t') := k a w in (r, t ++ t')
    | (inl e, t) => (inl e, t)
    end.

(** [try: body / except Exception as e: handler e] *)
Definition try_except {A : Type} (body : M A) (handler : exn -> M A) : M A :=
  fun w =>
    match body w with
    | (inl e, t) => let '(r, t') := handler e w in (r, t ++ t')
    | ok => ok
    end.

#[local] Notation "x <- m ;; k" := (bind m (fun x => k))
  (at level 100, m at next level, right associativity).

(** [os.getenv(k)] *)
Definition getenv (k : pystr) : M (option pystr) := fun w => (inr (environ w !! k), []).

(** [datetime.now()] *)
Definition now : M datetime := fun w => (inr (clock w), []).

(** One call of the client. *)
Definition call (exa : Exa) (req : request) : M (list Result) :=
  fun w => (exa_api w (api_key exa) req, [(api_key exa, req)]).

(** [d[k]]; the message of the [KeyError] is the quoted key. *)
Definition getitem (d : gmap pystr pyval) (k : pystr) : Res pyval :=
  match d !! k with
  | Some v => inr v
  | None => inl (Exn KeyError (py "'" ++ k ++ py "'"))
  end.

(** [d.get(k, dflt)] *)
Definition get (d : gmap pystr pyval) (k : pystr) (dflt : pyval) : pyval :=
  default dflt (d !! k).

(** *** Helpers *)

Definition get_exa_client : M Exa :=
  api_key <- getenv (py "EXA_API_KEY") ;;
  match api_key with
  | Some k =>
    if truthy k then ret {| api_key := k |}
    else raise (Exn ValueError (py "EXA_API_KEY environment variable is required. Get your key from https://exa.ai/"))
  | None =>
    raise (Exn ValueError (py "EXA_API_KEY environment variable is required. Get your key from https://exa.ai/"))
  end.

Definition safe_format_score (score : pyval) : Res pystr :=
  match score with
  | PNone => inr (py "N/A")
  | _ =>
    match py_float score with
    | FloatOk f => inr (Float64.format_3f f)
    | FloatValueError | FloatTypeError => inr (py_str score)
    | FloatOverflowError => inl (Exn OverflowError (py "int too large to convert to float"))
    end
  end.

(** [attr_name] is the projection of the attribute. *)
Definition safe_get_attr (obj : Result) (attr_name : Result -> option pystr)
    (dflt : pystr) : pystr :=
  match attr_name obj with
  | Some value => value
  | None => dflt
  end.

(** A response of one text block. *)
Record TextContent : Type := { type : pystr; text : pystr }.

(** *** The tool catalog *)

(** One parameter of an input schema. *)
Record Property : Type := {
  prop_type : pystr;
  prop_default : option Z;
  prop_minimum : option Z;
  prop_maximum : option Z
}.

Record Schema : Type := {
  properties : list (pystr * Property);
  required : list pystr
}.

(** A tool descriptor; the descriptions, free text, are left out. *)
Record Tool : Type := { name : pystr; inputSchema : Schema }.

Definition string_property : Property :=
  {| prop_type := py "string"; prop_default := None;
     prop_minimum := None; prop_maximum := None |}.

Definition integer_property (dflt lo hi : Z) : Property :=
  {| prop_type := py "integer"; prop_default := Some dflt;
     prop_minimum := Some lo; prop_maximum := Some hi |}.

Definition handle_list_tools : list Tool :=
  [ {| name := py "search_web_semantic";
       inputSchema :=
         {| properties := [ (py "query", string_property);
                            (py "num_results", integer_property 5 1 20) ];
            required := [ py "query" ] |} |};
    {| name := py "extract_page_content";
       inputSchema :=
         {| properties := [ (py "url", string_property) ];
            required := [ py "url" ] |} |};
    {| name := py "find_similar_pages";
       inputSchema :=
         {| properties := [ (py "url", string_property);
                            (py "num_results", integer_property 5 1 20) ];
            required := [ py "url" ] |} |};
    {| name := py "search_recent_content";
       inputSchema :=
         {| properties := [ (py "query", string_property);
                            (py "days_back", integer_property 7 1 365);
                            (py "num_results", integer_property 5 1 20) ];
            required := [ py "query" ] |} |};
    {| name := py "search_by_example_text";
       inputSchema :=
         {| properties := [ (py "text", string_property);
                            (py "num_results", integer_property 5 1 20) ];
            required := [ py "text" ] |} |} ].

(** *** The handlers *)

(** The loop over [enumerate(results.results, 1)].  Its four copies (in the
    two searches, the similar-page lookup and the example-text search)
    differ only in the literal that opens the score line, [score_line];
    [i] is the number of the first entry of [results]. *)
Fixpoint entries (score_line : pystr) (i : Z) (results : list Result)
    (response : pystr) : Res pystr :=
  match results with
  | [] => inr response
  | result :: rest =>
    let response :=
      response ++ (py "**") ++ str_of_Z i ++ (py ". ")
               ++ safe_get_attr result r_title (py "No title") ++ (py "**" ++ NL) in
    let response :=
      response ++ (py "ğŸ“ URL: ") ++ safe_get_attr result r_url (py "No URL") ++ (NL) in
    match safe_format_score (r_score result) with
    | inl e => inl e
    | inr s =>
      let response := response ++ score_line ++ s ++ (NL) in
      let response :=
        match r_published_date result with
        | Some pub_date =>
          if truthy pub_date then response ++ (py "ğŸ“… Published: ") ++ pub_date ++ (NL)
          else response
        | None => response
        end in
      entries score_line (i + 1) rest (response ++ NL)
    end
  end.

Definition _search_web_semantic (exa : Exa) (arguments : gmap pystr pyval)
    : M (list TextContent) :=
  query <- lift (getitem arguments (py "query")) ;;
  let num_results := get arguments (py "num_results") (PInt 5) in
  try_except
    (results <- call exa (search {| query := query; num_results := num_results;
                                    start_published_date := None; search_type := None;
                                    use_autoprompt := Some true |}) ;;
     match results with
     | [] =>
       ret [ {| type := py "text";
                text := (py "No results found for query: '") ++ py_str query ++ (py "'. Try a different search term or broader query.") |} ]
     | _ =>
       let response := (py "ğŸ” **Semantic Search Results for: '") ++ py_str query ++ (py "'**" ++ NL ++ NL) in
       let response :=
         response ++ (py "Found ") ++ str_of_Z (Z.of_nat (length results)) ++ (py " relevant results:" ++ NL ++ NL) in
       response <- lift (entries (py "â­ Relevance Score: ") 1 results response) ;;
       ret [ {| type := py "text"; text := response |} ]
     end)
    (fun e =>
       let error_msg := (py "Web search failed: ") ++ exn_str e ++ (py ". Please check your query and try again.") in
       ret [ {| type := py "text"; text := error_msg |} ]).

Definition _extract_page_content (exa : Exa) (arguments : gmap pystr pyval)
    : M (list TextContent) :=
  url <- lift (getitem arguments (py "url")) ;;
  try_except
    (results <- call exa (get_contents [url] true) ;;
     match results with
     | [] =>
       ret [ {| type := py "text";
                text := (py "Could not extract content from URL: ") ++ py_str url ++ (py ". The page might be inaccessible or require authentication.") |} ]
     | content :: _ =>
       let response := (py "ğŸ“„ **Content Extracted from: ") ++ safe_get_attr content r_url (py_str url) ++ (py "**" ++ NL ++ NL) in
       let title := safe_get_attr content r_title (py "No title available") in
       let response :=
         if negb (eqb title (py "No title available"))
         then response ++ (py "**Title:** ") ++ title ++ (NL ++ NL)
         else response in
       let response :=
         match r_text content with
         | Some text_content =>
           if truthy text_content then
             let text := strip text_content in
             if 3000 <? len text then
               let response := response ++ (py "**Content (first 3000 characters):**" ++ NL) ++ slice_to 3000 text ++ (py "..." ++ NL ++ NL) in
               response ++ (py "*[Content truncated - total length: ") ++ str_of_Z (len text) ++ (py " characters]*")
             else response ++ (py "**Content:**" ++ NL) ++ text
           else response ++ py "**Content:** Unable to extract readable text from this page."
         | None =>
           response ++ py "**Content:** Unable to extract readable text from this page."
         end in
       ret [ {| type := py "text"; text := response |} ]
     end)
    (fun e =>
       let error_msg := (py "Content extraction failed for ") ++ py_str url ++ (py ": ") ++ exn_str e ++ (py ". The page might be blocked or require special access.") in
       ret [ {| type := py "text"; text := error_msg |} ]).

Definition _find_similar_pages (exa : Exa) (arguments : gmap pystr pyval)
    : M (list TextContent) :=
  url <- lift (getitem arguments (py "url")) ;;
  let num_results := get arguments (py "num_results") (PInt 5) in
  try_except
    (results <- call exa (find_similar url num_results) ;;
     match results with
     | [] =>
       ret [ {| type := py "text";
                text := (py "No similar pages found for: ") ++ py_str url ++ (py ". Try a different URL or check if the URL is accessible.") |} ]
     | _ =>
       let response := (py "ğŸ”— **Pages Similar to: ") ++ py_str url ++ (py "**" ++ NL ++ NL) in
       let response :=
         response ++ (py "Found ") ++ str_of_Z (Z.of_nat (length results)) ++ (py " similar pages:" ++ NL ++ NL) in
       response <- lift (entries (py "â­ Similarity Score: ") 1 results response) ;;
       ret [ {| type := py "text"; text := response |} ]
     end)
    (fun e =>
       let error_msg := (py "Similar pages search failed for ") ++ py_str url ++ (py ": ") ++ exn_str e ++ (py ". Please verify the URL is valid and accessible.") in
       ret [ {| type := py "text"; text := error_msg |} ]).

Definition _search_recent_content (exa : Exa) (arguments : gmap pystr pyval)
    : M (list TextContent) :=
  query <- lift (getitem arguments (py "query")) ;;
  let days_back := get arguments (py "days_back") (PInt 7) in
  let num_results := get arguments (py "num_results") (PInt 5) in
  try_except
    (end_date <- now ;;
     delta <- lift (timedelta_days days_back) ;;
     start_date <- lift (datetime_sub end_date delta) ;;
     let start_date_str := strftime_Ymd start_date in
     results <- call exa (search {| query := query; num_results := num_results;
                                    start_published_date := Some start_date_str;
                                    search_type := None;
                                    use_autoprompt := Some true |}) ;;
     match results with
     | [] =>
       ret [ {| type := py "text";
                text := (py "No recent content found for '") ++ py_str query ++ (py "' in the last ") ++ py_str days_back
                        ++ (py " days. Try a broader query or increase the time range.") |} ]
     | _ =>
       let response :=
         (py "ğŸ•’ **Recent Content for: '") ++ py_str query ++ (py "'** (Last ") ++ py_str days_back ++ (py " days)" ++ NL ++ NL) in
       let response :=
         response ++ (py "Found ") ++ str_of_Z (Z.of_nat (length results)) ++ (py " recent results:" ++ NL ++ NL) in
       response <- lift (entries (py "â­ Relevance Score: ") 1 results response) ;;
       ret [ {| type := py "text"; text := response |} ]
     end)
    (fun e =>
       let error_msg := (py "Recent content search failed: ") ++ exn_str e ++ (py ". Please try a different query.") in
       ret [ {| type := py "text"; text := error_msg |} ]).

Definition _search_by_example_text (exa : Exa) (arguments : gmap pystr pyval)
    : M (list TextContent) :=
  text <- lift (getitem arguments (py "text")) ;;
  let num_results := get arguments (py "num_results") (PInt 5) in
  (* the log line before the [try] evaluates [len(text)] *)
  _ <- lift (py_len text) ;;
  try_except
    (results <- call exa (search {| query := text; num_results := num_results;
                                    start_published_date := None;
                                    search_type := Some (py "neural");
                                    use_autoprompt := Some false |}) ;;
     match results with
     | [] =>
       ret [ {| type := py "text"; text := (py "No similar content found for the provided text sample. Try a longer or more specific text example.") |} ]
     | _ =>
       n <- lift (py_len text) ;;
       example_preview <-
         (if 200 <? n
          then (head <- lift (py_slice_to 200 text) ;; ret (head ++ py "..."))
          else ret (py_str text)) ;;
       let response := (py "ğŸ“ **Content Similar to Example Text:**" ++ NL ++ NL) in
       let response := response ++ (py "**Example:** ") ++ example_preview ++ (NL ++ NL) in
       let response :=
         response ++ (py "Found ") ++ str_of_Z (Z.of_nat (length results)) ++ (py " similar results:" ++ NL ++ NL) in
       response <- lift (entries (py "â­ Similarity Score: ") 1 results response) ;;
       ret [ {| type := py "text"; text := response |} ]
     end)
    (fun e =>
       let error_msg := (py "Example text search failed: ") ++ exn_str e ++ (py ". Please try a different text sample.") in
       ret [ {| type := py "text"; text := error_msg |} ]).

(** *** The dispatcher *)

Definition handle_call_tool (name : pystr) (arguments : gmap pystr pyval)
    : M (list TextContent) :=
  try_except
    (exa <- get_exa_client ;;
     if eqb name (py "search_web_semantic") then _search_web_semantic exa arguments
     else if eqb name (py "extract_page_content") then _extract_page_content exa arguments
     else if eqb name (py "find_similar_pages") then _find_similar_pages exa arguments
     else if eqb name (py "search_recent_content") then _search_recent_content exa arguments
     else if eqb name (py "search_by_example_text") then _search_by_example_text exa arguments
     else
       let error_msg := (py "Unknown tool: ") ++ name in
       ret [ {| type := py "text"; text := error_msg |} ])
    (fun e =>
       match exn_cls e with
       | ValueError =>
         let error_msg := (py "Configuration Error: ") ++ exn_str e in
         ret [ {| type := py "text"; text := error_msg |} ]
       | _ =>
         let error_msg := (py "Error in ") ++ name ++ (py ": ") ++ exn_str e in
         ret [ {| type := py "text"; text := error_msg |} ]
       end).


(** *** The entry point *)

(** [main]: the key is checked before the transport is opened.  [run]
    stands for the loop of the library, [app.run] inside [stdio_server()].
    [main] returns [None] on both paths; the value here tells whether the
    loop was entered. *)
Definition main (run : M unit) : M bool :=
  validated <-
    try_except (_ <- get_exa_client ;; ret true)
      (fun e =>
         match exn_cls e with
         | ValueError => ret false
         | _ => raise e
         end) ;;
  if validated : bool then (_ <- run ;; ret true) else ret false.

End Server.

(** ** [test_connection.py] *)

Module TestConnection.
Import PyStr Py Server.
Local Open Scope Z_scope.

(** What the script observes: the environment, whether the two libraries
    import ([None]) or what the import raises, the constructor [Exa(key)]
    and the Exa service.  Standard output is not part of the model; an
    expression that is printed is evaluated where it can raise. *)
Record Env : Type := {
  environ : gmap pystr pystr;
  import_exa_py : option exn;
  import_mcp : option exn;
  new_exa : option pystr -> exn + Exa;
  exa_api : pystr -> request -> exn + list Result
}.

(** A computation of the script. *)
Definition T (A : Type) : Type := Env -> Res A.

Definition ret {A : Type} (a : A) : T A := fun _ => inr a.

Definition bind {A B : Type} (m : T A) (k : A -> T B) : T B :=
  fun env =>
    match m env with
    | inr a => k a env
    | inl e => inl e
    end.

(** [try: body / except Exception: handler] *)
Definition try_except {A : Type} (body : T A) (handler : exn -> T A) : T A :=
  fun env =>
    match body env with
    | inl e => handler e env
    | ok => ok
    end.

#[local] Notation "x <- m ;; k" := (bind m (fun x => k))
  (at level 100, m at next level, right associativity).

(** [from exa_py import Exa] and [import mcp] *)
Definition import_ (outcome : Env -> option exn) : T unit :=
  fun env =>
    match outcome env with
    | None => inr tt
    | Some e => inl e
    end.

(** [Exa(os.getenv("EXA_API_KEY"))] *)
Definition connect : T Exa :=
  fun env => new_exa env (environ env !! py "EXA_API_KEY").

Definition call (exa : Exa) (req : request) : T (list Result) :=
  fun env => exa_api env (api_key exa) req.

Definition test_environment_setup : T bool :=
  fun env =>
    match environ env !! py "EXA_API_KEY" with
    | Some api_key => inr (truthy api_key)
    | None => inr false
    end.

(** [except ImportError] lets any other exception through. *)
Definition test_exa_import : T bool :=
  try_except
    (_ <- import_ import_exa_py ;; ret true)
    (fun e env => match exn_cls e with ImportError => inr false | _ => inl e end).

Definition test_mcp_import : T bool :=
  try_except
    (_ <- import_ import_mcp ;; ret true)
    (fun e env => match exn_cls e with ImportError => inr false | _ => inl e end).

(** The script's own copy of the score formatter. *)
Definition safe_format_score (score : pyval) : Res pystr :=
  match score with
  | PNone => inr (py "N/A")
  | _ =>
    match py_float score with
    | FloatOk f => inr (Float64.format_3f f)
    | FloatValueError | FloatTypeError => inr (py_str score)
    | FloatOverflowError => inl (Exn OverflowError (py "int too large to convert to float"))
    end
  end.

Definition search_args (q : string) : SearchArgs :=
  {| query := PStr (py q); num_results := PInt 1; start_published_date := None;
     search_type := None; use_autoprompt := None |}.

Definition test_exa_api_connection : T bool :=
  try_except
    (_ <- import_ import_exa_py ;;
     exa <- connect ;;
     results <- call exa (search (search_args "test query")) ;;
     match results with
     | result :: _ =>
       (* the score is printed *)
       _ <- (fun _ => safe_format_score (r_score result)) ;;
       ret true
     | [] => ret false
     end)
    (fun _ => ret false).

Definition test_content_extraction : T bool :=
  try_except
    (_ <- import_ import_exa_py ;;
     exa <- connect ;;
     results <- call exa (get_contents [PStr (py "https://example.com")] true) ;;
     match results with
     | content :: _ => ret true
     | [] => ret true  (* Not a critical failure *)
     end)
    (fun _ => ret true).  (* Not a critical failure *)

Definition test_similarity_search : T bool :=
  try_except
    (_ <- import_ import_exa_py ;;
     exa <- connect ;;
     results <- call exa (find_similar (PStr (py "https://example.com")) (PInt 1)) ;;
     match results with
     | result :: _ =>
       _ <- (fun _ => safe_format_score (r_score result)) ;;
       ret true
     | [] => ret true  (* Not a critical failure *)
     end)
    (fun _ => ret true).  (* Not a critical failure *)

Definition test_additional_functionality : T bool :=
  try_except
    (_ <- import_ import_exa_py ;;
     exa <- connect ;;
     _ <- call exa (search {| query := PStr (py "technology news"); num_results := PInt 1;
                              start_published_date := Some (py "2024-01-01");
                              search_type := None; use_autoprompt := None |}) ;;
     _ <- call exa (search {| query := PStr (py "artificial intelligence");
                              num_results := PInt 1; start_published_date := None;
                              search_type := Some (py "neural");
                              use_autoprompt := None |}) ;;
     ret true)
    (fun _ => ret true).  (* Not a critical failure *)

Definition tests : list (pystr * T bool) :=
  [ (py "Environment Setup", test_environment_setup);
    (py "Exa Library Import", test_exa_import);
    (py "MCP Library Import", test_mcp_import);
    (py "Exa API Connection", test_exa_api_connection);
    (py "Content Extraction", test_content_extraction);
    (py "Similarity Search", test_similarity_search);
    (py "Additional Functionality", test_additional_functionality) ].

(** First 4 tests are critical *)
Definition critical_tests : Z := 4.

(** The loop over [enumerate(tests)] from index [i], threading the two
    counters; a test that raises is reported and counts as not passed. *)
Fixpoint run_loop (env : Env) (i : Z) (tests : list (pystr * T bool))
    (passed critical_passed : Z) : Z * Z :=
  match tests with
  | [] => (passed, critical_passed)
  | (test_name, test_func) :: rest =>
    match test_func env with
    | inr true =>
      run_loop env (i + 1) rest (passed + 1)
               (if i <? critical_tests then critical_passed + 1 else critical_passed)
    | inr false => run_loop env (i + 1) rest passed critical_passed
    | inl e => run_loop env (i + 1) rest passed critical_passed
    end
  end.

(** [run_all_tests] over a given list of tests. *)
Definition run_tests (tests : list (pystr * T bool)) (env : Env) : bool :=
  let '(passed, critical_passed) := run_loop env 0 tests 0 0 in
  critical_passed =? critical_tests.

Definition run_all_tests (env : Env) : bool := run_tests tests env.

(** The exit status of the script: [sys.exit(0 if success else 1)]. *)
Definition exit_code (env : Env) : Z := if run_all_tests env then 0 else 1.

End TestConnection.

(** ** Vocabulary of the properties *)

Module Vocabulary.
Import PyStr Py PyDate Server.
Local Open Scope Z_scope.

(** The one text block of a response. *)
Definition text_block (s : pystr) : TextContent := {| type := py "text"; text := s |}.

(** The usable credential of a world: the variable is set and not empty. *)
Definition credential (w : World) : option pystr :=
  match Server.environ w !! py "EXA_API_KEY" with
  | Some k => if truthy k then Some k else None
  | None => None
  end.

(** The names the catalog advertises. *)
Definition tool_names : list pystr := map name handle_list_tools.

(** [s] occurs in [t]. *)
Definition occurs_in (s t : pystr) : Prop := exists pre post, t = pre ++ s ++ post.



(** Postcondition of a computation in a world: [Q] holds of the value it
    returns, [E] of the exception it raises. *)
Definition post {A : Type} (m : M A) (w : World) (Q : A -> Prop) (E : exn -> Prop) : Prop :=
  match (m w).1 with
  | inr a => Q a
  | inl e => E e
  end.


(** A world without a credential, and one with the key [k] whose service
    finds nothing. *)
Definition bare_world : World :=
  {| Server.environ := ∅;
     clock := DateTime 2026 11 3 12 0 0 0;
     Server.exa_api := fun _ _ => inr [] |}.

Definition quiet_world : World :=
  {| Server.environ := {[ py "EXA_API_KEY" := py "k" ]};
     clock := DateTime 2026 11 3 12 0 0 0;
     Server.exa_api := fun _ _ => inr [] |}.

(** The tag that opens the response to a name outside the catalog. *)
Definition unknown_tag : pystr := py "Unknown tool: ".


(** The text of the response to a call made without a credential. *)
Definition configuration_error : pystr :=
  py "Configuration Error: "
  ++ py "EXA_API_KEY environment variable is required. Get your key from https://exa.ai/".


(** The map from the names of the catalog to the handlers, as the
    dispatcher's chain of comparisons spells it. *)
Definition handlers : list (pystr * (Exa -> gmap pystr pyval -> M (list TextContent))) :=
  [ (py "search_web_semantic", _search_web_semantic);
    (py "extract_page_content", _extract_page_content);
    (py "find_similar_pages", _find_similar_pages);
    (py "search_recent_content", _search_recent_content);
    (py "search_by_example_text", _search_by_example_text) ].








(** The date [(y, m, d)] is one of the calendar. *)
Definition valid_date (y m d : Z) : Prop :=
  1 <= y <= 9999 /\ 1 <= m <= 12 /\ 1 <= d <= days_in_month y m.

(** Arguments of a recent-content search for [rust], with or without
    [days_back]. *)
Definition recent_arguments (days_back : option pyval) : gmap pystr pyval :=
  match days_back with
  | Some v => {[ py "query" := PStr (py "rust"); py "days_back" := v ]}
  | None => {[ py "query" := PStr (py "rust") ]}
  end.




(** A result with the given score. *)
Definition scored (score : pyval) : Result :=
  {| r_title := Some (py "Example Domain"); r_url := Some (py "https://example.com");
     r_score := score; r_published_date := None; r_text := None |}.

(** Two results: one with a numeric score, one with a score in words. *)
Definition scored_results : list Result :=
  [scored (PFloat (Float64.round_decimal false 8234567 (-7))); scored (PStr (py "high"))].

(** A world with a key whose service returns those results for every
    request. *)
Definition listing_world : World :=
  {| Server.environ := {[ py "EXA_API_KEY" := py "k" ]};
     clock := DateTime 2026 11 3 12 0 0 0;
     Server.exa_api := fun _ _ => inr scored_results |}.

(** Arguments that name a query, a URL and a text. *)
Definition sample_arguments : gmap pystr pyval :=
  {[ py "query" := PStr (py "rust");
     py "url" := PStr (py "https://example.com");
     py "text" := PStr (py "quantum computing") ]}.

End Vocabulary.

(** ** Vocabulary of the further properties *)

Module Scenarios.
Import PyStr Py PyDate Server Vocabulary.
Local Open Scope Z_scope.


(** The value a handler reads for the parameter [p] declared as [prop]:
    the argument, or the declared default when the argument is omitted. *)
Definition read_parameter (prop : Property) (arguments : gmap pystr pyval) (p : pystr)
    : option pyval :=
  match arguments !! p with
  | Some v => Some v
  | None => PInt <$> prop_default prop
  end.

(** Two argument mappings give every parameter declared by [t] the same
    value. *)
Definition same_parameters (t : Tool) (a a' : gmap pystr pyval) : Prop :=
  Forall (fun d => read_parameter d.2 a d.1 = read_parameter d.2 a' d.1)
         (properties (inputSchema t)).

(** The date a listing shows for a result: none when the attribute is
    missing or empty. *)
Definition shown_date (r : Result) : option pystr :=
  match r_published_date r with
  | Some d => if truthy d then Some d else None
  | None => None
  end.

(** [w] with every result list of the service passed through [f]. *)
Definition with_results (f : list Result -> list Result) (w : World) : World :=
  {| Server.environ := Server.environ w;
     clock := clock w;
     Server.exa_api := fun k req =>
       match Server.exa_api w k req with
       | inr l => inr (f l)
       | inl e => inl e
       end |}.





Definition semantic_tool : Tool :=
  {| name := py "search_web_semantic";
     inputSchema :=
       {| properties := [ (py "query", string_property);
                          (py "num_results", integer_property 5 1 20) ];
          required := [ py "query" ] |} |}.



(** A world with the same key and the same service as [quiet_world], at
    another time and with more in its environment. *)
Definition elsewhere : World :=
  {| Server.environ := {[ py "EXA_API_KEY" := py "k"; py "HOME" := py "/root" ]};
     clock := DateTime 1999 12 31 23 59 59 0;
     Server.exa_api := fun _ _ => inr [] |}.

(** A result given a text, its date normalised: what a listing shows of it
    is kept. *)
Definition retouched (r : Result) : Result :=
  {| r_title := r_title r; r_url := r_url r; r_score := r_score r;
     r_published_date := shown_date r; r_text := Some (py "body") |}.

(** The first page of a list alone, without its score and date. *)
Definition first_page (l : list Result) : list Result :=
  match l with
  | c :: _ =>
    [ {| r_title := r_title c; r_url := r_url c; r_score := PNone;
         r_published_date := None; r_text := r_text c |} ]
  | [] => []
  end.


(** An environment of the test script in which everything works: the key
    is set, both libraries import, the client is built from the key and the
    service answers every request with one result. *)
Definition working_env : TestConnection.Env :=
  {| TestConnection.environ := {[ py "EXA_API_KEY" := py "k" ]};
     TestConnection.import_exa_py := None;
     TestConnection.import_mcp := None;
     TestConnection.new_exa := fun key => inr {| api_key := default [] key |};
     TestConnection.exa_api := fun _ _ => inr [scored (PInt 1)] |}.

End Scenarios.

(* ===================================================================== *)
(** * Part II: properties *)
(* ===================================================================== *)

(** ** Strings *)

Section StringFacts.
Import PyStr.

Lemma eqb_eq (s t : pystr) : eqb s t = true <-> s = t.
Proof.
  revert t. induction s as [|c s IH]; intros [|d t]; simpl; try (split; congruence).
  rewrite andb_true_iff, N.eqb_eq, IH. split.
  - intros [-> ->]. reflexivity.
  - intros [= -> ->]. auto.
Qed.


Lemma eqb_neq (s t : pystr) : eqb s t = false <-> s <> t.
Proof.
  rewrite <- eqb_eq. destruct (eqb s t); split; congruence.
Qed.

Lemma startswith_spec (p s : pystr) : startswith p s = true <-> exists r, s = p ++ r.
Proof.
  revert s. induction p as [|c p IH]; intros s; simpl.
  - split; eauto.
  - destruct s as [|d s].
    + split; [discriminate | intros [r Hr]; discriminate].
    + rewrite andb_true_iff, N.eqb_eq, IH. split.
      * intros [-> [r ->]]. eauto.
      * intros [r [= -> ->]]. eauto.
Qed.


Lemma contains_spec (needle hay : pystr) :
  contains needle hay = true <-> exists pre post, hay = pre ++ needle ++ post.
Proof.
  induction hay as [|c hay IH]; simpl.
  - rewrite orb_false_r, startswith_spec. split.
    + intros [r Hr]. exists [], r. exact Hr.
    + intros (pre & post & H). destruct pre as [|x pre]; [|discriminate].
      simpl in H. eauto.
  - rewrite orb_true_iff, startswith_spec, IH. split.
    + intros [[r Hr] | (pre & post & ->)].
      * exists [], r. exact Hr.
      * exists (c :: pre), post. reflexivity.
    + intros (pre & post & H). destruct pre as [|x pre].
      * left. simpl in H. eauto.
      * right. injection H as -> ->. eauto.
Qed.


Lemma lstrip_idem_head (s : pystr) :
  match s with c :: _ => isspace c = false | [] => True end -> lstrip s = s.
Proof. destruct s as [|c s]; simpl; [reflexivity | intros ->; reflexivity]. Qed.



Lemma strip_fixed (s : pystr) :
  match s with c :: _ => isspace c = false | [] => True end ->
  match rev s with c :: _ => isspace c = false | [] => True end ->
  strip s = s.
Proof.
  intros Hh Hl. unfold strip, rstrip.
  rewrite (lstrip_idem_head s Hh), (lstrip_idem_head (rev s) Hl).
  apply rev_involutive.
Qed.

End StringFacts.

(** ** Computations *)

Section MonadFacts.
Import PyStr Py PyDate Server Vocabulary.

Context {A B : Type}.


Lemma post_raise (e : exn) w (Q : A -> Prop) (E : exn -> Prop) : E e -> post (raise e) w Q E.
Proof. intros H. exact H. Qed.





End MonadFacts.

Section WorldFacts.
Import PyStr Py PyDate Server Vocabulary.



(** The client is built exactly when the world holds a credential, without
    any request. *)
Lemma get_exa_client_present w k :
  credential w = Some k -> get_exa_client w = (inr {| api_key := k |}, []).
Proof.
  unfold credential, get_exa_client, bind, getenv. simpl.
  destruct (Server.environ w !! py "EXA_API_KEY") as [k'|]; [|discriminate].
  destruct (truthy k'); [|discriminate]. intros [= ->]. reflexivity.
Qed.

Lemma get_exa_client_absent w :
  credential w = None ->
  get_exa_client w =
    (inl (Exn ValueError
            (py "EXA_API_KEY environment variable is required. Get your key from https://exa.ai/")),
     []).
Proof.
  unfold credential, get_exa_client, bind, getenv. simpl.
  destruct (Server.environ w !! py "EXA_API_KEY") as [k'|]; [|reflexivity].
  destruct (truthy k'); [discriminate|]. reflexivity.
Qed.

End WorldFacts.

(** ** The dispatcher *)

Section Dispatcher.
Import PyStr Py PyDate Server Vocabulary.

Lemma tool_names_eq :
  tool_names = [ py "search_web_semantic"; py "extract_page_content";
                 py "find_similar_pages"; py "search_recent_content";
                 py "search_by_example_text" ].
Proof. reflexivity. Qed.

(** A name outside the catalog fails each comparison of the dispatcher. *)
Lemma not_in_catalog (name : pystr) :
  ~ In name tool_names <->
  eqb name (py "search_web_semantic") = false /\
  eqb name (py "extract_page_content") = false /\
  eqb name (py "find_similar_pages") = false /\
  eqb name (py "search_recent_content") = false /\
  eqb name (py "search_by_example_text") = false.
Proof.
  rewrite tool_names_eq. rewrite !eqb_neq. split.
  - intros H. repeat split; intros Heq; apply H; rewrite Heq.
    + left. reflexivity.
    + right. left. reflexivity.
    + do 2 right. left. reflexivity.
    + do 3 right. left. reflexivity.
    + do 4 right. left. reflexivity.
  - intros (H1 & H2 & H3 & H4 & H5) Hin.
    destruct Hin as [Heq|[Heq|[Heq|[Heq|[Heq|[]]]]]].
    + exact (H1 (eq_sym Heq)).
    + exact (H2 (eq_sym Heq)).
    + exact (H3 (eq_sym Heq)).
    + exact (H4 (eq_sym Heq)).
    + exact (H5 (eq_sym Heq)).
Qed.


End Dispatcher.

(** ** What the handlers return *)

Section Handlers.
Import PyStr Py PyDate Server Vocabulary.










End Handlers.

(** ** Every call is answered *)

Section CallTool.
Import PyStr Py PyDate Server Vocabulary.


(** Without a credential the dispatcher answers with the configuration
    error and sends nothing. *)
Lemma call_without_credential (name : pystr) (arguments : gmap pystr pyval) (w : World) :
  credential w = None ->
  handle_call_tool name arguments w = (inr [text_block configuration_error], []).
Proof.
  intros Hk. unfold handle_call_tool, try_except at 1. unfold bind at 1.
  rewrite (get_exa_client_absent w Hk). cbn [exn_cls exn_str]. unfold ret.
  unfold text_block, configuration_error. reflexivity.
Qed.

(** With a credential, a name outside the catalog is answered with the
    tagged name, and nothing is sent. *)
Lemma call_outside_catalog (name : pystr) (arguments : gmap pystr pyval) (w : World) k :
  credential w = Some k -> ~ In name tool_names ->
  handle_call_tool name arguments w = (inr [text_block (unknown_tag ++ name)], []).
Proof.
  intros Hk Hn. apply not_in_catalog in Hn as (H1 & H2 & H3 & H4 & H5).
  unfold handle_call_tool, try_except at 1. unfold bind at 1.
  rewrite (get_exa_client_present w k Hk), H1, H2, H3, H4, H5. reflexivity.
Qed.



End CallTool.

(** ** Faults of the service *)

Section Faults.
Import PyStr Py PyDate Server Vocabulary.

(** Comparisons of two literals are evaluated. *)
Ltac eval_names :=
  repeat match goal with
  | |- context [eqb (py ?a) (py ?b)] =>
    let v := eval vm_compute in (eqb (py a) (py b)) in
    change (eqb (py a) (py b)) with v
  end; cbv iota.










End Faults.

Section FaultInstances.
Import PyStr Py PyDate Server Vocabulary.



End FaultInstances.

(** ** The credential and the catalog *)

Section Credential.
Import PyStr Py PyDate Server Vocabulary.


(** C2: for every tool name, of the catalog or not, and every argument
    mapping, a call made while the credential variable is absent (or empty)
    returns the configuration-error response, one text block that tells
    where to get a key; nothing is raised, and no request is sent to the
    service. *)
Theorem missing_credential_response (name : pystr) (arguments : gmap pystr pyval)
    (w : World) :
  credential w = None ->
  handle_call_tool name arguments w = (inr [text_block configuration_error], [])
  /\ startswith (py "Configuration Error: ") configuration_error = true
  /\ occurs_in (py "Get your key from https://exa.ai/") configuration_error.
Proof.
  intros Hk. split; [apply call_without_credential; exact Hk|].
  split; [reflexivity|]. apply contains_spec. vm_compute. reflexivity.
Qed.

(** The theorem of C2 at a world with an empty environment, for a name of
    the catalog. *)
Lemma missing_credential_witness :
  handle_call_tool (py "search_web_semantic") sample_arguments bare_world =
    (inr [text_block configuration_error], [])
  /\ startswith (py "Configuration Error: ") configuration_error = true
  /\ occurs_in (py "Get your key from https://exa.ai/") configuration_error.
Proof.
  apply (missing_credential_response (py "search_web_semantic") sample_arguments bare_world).
  reflexivity.
Defined.

(** An absent variable and an empty one both leave the world without a
    credential. *)
Lemma credential_absent (w : World) :
  credential w = None <->
  Server.environ w !! py "EXA_API_KEY" = None \/ Server.environ w !! py "EXA_API_KEY" = Some [].
Proof.
  unfold credential. destruct (Server.environ w !! py "EXA_API_KEY") as [[|c k]|]; simpl.
  - split; auto.
  - split; [discriminate | intros [H|H]; discriminate].
  - split; auto.
Qed.





End Credential.

(** ** The connection test suite *)

Section ExitCode.
Import PyStr Py Server TestConnection.
Local Open Scope Z_scope.

(** From the fifth test on, the loop leaves the count of critical tests
    as it is, whatever the tests do. *)
Lemma run_loop_past_critical (env : Env) (tests : list (pystr * T bool)) :
  forall i passed critical_passed,
    critical_tests <= i ->
    (run_loop env i tests passed critical_passed).2 = critical_passed.
Proof.
  induction tests as [|[test_name test_func] rest IH]; intros i passed cp Hi; simpl.
  - reflexivity.
  - destruct (test_func env) as [e|[|]]; try (apply IH; lia).
    destruct (i <? critical_tests) eqn:Hlt; [apply Z.ltb_lt in Hlt; lia|].
    apply IH. lia.
Qed.

(** One step of the loop on a critical test. *)
Lemma run_loop_step (env : Env) (name : pystr) (f : T bool) rest i passed cp :
  i < critical_tests ->
  (run_loop env i ((name, f) :: rest) passed cp).2 =
  (run_loop env (i + 1) rest
     (match f env with inr true => passed + 1 | _ => passed end)
     (match f env with inr true => cp + 1 | _ => cp end)).2.
Proof.
  intros Hi. simpl. destruct (f env) as [e|[|]]; try reflexivity.
  apply Z.ltb_lt in Hi. rewrite Hi. reflexivity.
Qed.

(** The verdict of the loop over four critical tests followed by any
    further tests. *)
Lemma run_tests_verdict (env : Env) (n1 n2 n3 n4 : pystr) (f1 f2 f3 f4 : T bool)
    (rest : list (pystr * T bool)) :
  run_tests ((n1, f1) :: (n2, f2) :: (n3, f3) :: (n4, f4) :: rest) env = true <->
  f1 env = inr true /\ f2 env = inr true /\ f3 env = inr true /\ f4 env = inr true.
Proof.
  unfold run_tests.
  destruct (run_loop env 0 _ 0 0) as [passed cp] eqn:Hrun.
  assert (Hcp : cp = (run_loop env 0 ((n1, f1) :: (n2, f2) :: (n3, f3) :: (n4, f4) :: rest)
                        0 0).2) by (rewrite Hrun; reflexivity).
  clear Hrun.
  rewrite !run_loop_step in Hcp by (unfold critical_tests; lia).
  rewrite run_loop_past_critical in Hcp by (unfold critical_tests; lia).
  subst cp. unfold critical_tests. rewrite Z.eqb_eq.
  destruct (f1 env) as [e1|[|]], (f2 env) as [e2|[|]], (f3 env) as [e3|[|]],
           (f4 env) as [e4|[|]]; simpl;
    split; try (intros H; discriminate H); try (intros (H1 & H2 & H3 & H4); discriminate);
    auto.
Qed.

(** The tests after the fourth return [True] on every path. *)
Lemma noncritical_tests_pass (env : Env) :
  test_content_extraction env = inr true /\
  test_similarity_search env = inr true /\
  test_additional_functionality env = inr true.
Proof.
  unfold test_content_extraction, test_similarity_search, test_additional_functionality,
    try_except, bind, import_, connect, call, ret.
  destruct (import_exa_py env); [auto|].
  destruct (new_exa env _) as [e|exa]; [auto|].
  repeat split.
  - destruct (TestConnection.exa_api env _ _) as [e|[|c r]]; reflexivity.
  - destruct (TestConnection.exa_api env _ (find_similar _ _)) as [e|[|c r]]; try reflexivity.
    destruct (safe_format_score _); reflexivity.
  - destruct (TestConnection.exa_api env _ _) as [e|r1]; [reflexivity|].
    destruct (TestConnection.exa_api env _ _) as [e|r2]; reflexivity.
Qed.

(** C8: the script exits with 0 exactly when the four critical checks
    (the environment variable, the two imports, the basic API call) all
    succeed, and with 1 otherwise.  The three checks after them return
    [True] whatever happens, and replacing them by any tests at all, failing
    or raising, leaves the verdict unchanged. *)
Theorem exit_code_critical_only (env : Env) :
  (exit_code env = 0 <->
     test_environment_setup env = inr true /\ test_exa_import env = inr true /\
     test_mcp_import env = inr true /\ test_exa_api_connection env = inr true)
  /\ (exit_code env <> 0 -> exit_code env = 1)
  /\ (test_content_extraction env = inr true /\
      test_similarity_search env = inr true /\
      test_additional_functionality env = inr true)
  /\ (forall others : list (pystr * T bool),
        run_tests (firstn 4 tests ++ others) env = run_all_tests env).
Proof.
  assert (Hv : forall rest,
    run_tests (firstn 4 tests ++ rest) env = true <->
    test_environment_setup env = inr true /\ test_exa_import env = inr true /\
    test_mcp_import env = inr true /\ test_exa_api_connection env = inr true).
  { intros rest. apply run_tests_verdict. }
  assert (Hall : run_all_tests env = true <->
    test_environment_setup env = inr true /\ test_exa_import env = inr true /\
    test_mcp_import env = inr true /\ test_exa_api_connection env = inr true).
  { apply run_tests_verdict. }
  split; [|split; [|split]].
  - unfold exit_code. rewrite <- Hall. destruct (run_all_tests env); split; try reflexivity;
      intros H; discriminate H.
  - unfold exit_code. destruct (run_all_tests env); [intros H; contradiction H|]; reflexivity.
  - apply noncritical_tests_pass.
  - intros others. specialize (Hv others).
    destruct (run_tests (firstn 4 tests ++ others) env), (run_all_tests env); try reflexivity.
    + symmetry. apply Hall, Hv. reflexivity.
    + apply Hv, Hall. reflexivity.
Qed.


End ExitCode.

(** ** Empty result lists *)

Section EmptyResults.
Import PyStr Py PyDate Server Vocabulary.









End EmptyResults.

(** ** Content extraction *)

Section Extraction.
Import PyStr Py PyDate Server Vocabulary.
Local Open Scope Z_scope.









End Extraction.

(** ** The calendar *)

Section Calendar.
Import PyStr Py PyDate Server Vocabulary.
Local Open Scope Z_scope.










End Calendar.

(** ** The recent-content search *)

Section Recent.
Import PyStr Py PyDate Server Vocabulary.
Local Open Scope Z_scope.

Lemma month_cases (m : Z) :
  1 <= m <= 12 ->
  m = 1 \/ m = 2 \/ m = 3 \/ m = 4 \/ m = 5 \/ m = 6 \/
  m = 7 \/ m = 8 \/ m = 9 \/ m = 10 \/ m = 11 \/ m = 12.
Proof. lia. Qed.

(** The ordinal of a date of the calendar is a valid ordinal, and from
    the year 2 on it exceeds 365. *)
Lemma ymd2ord_bounds (y m d : Z) :
  valid_date y m d ->
  1 <= ymd2ord y m d <= MAXORDINAL /\ (2 <= y -> 366 <= ymd2ord y m d).
Proof.
  unfold valid_date, ymd2ord, days_before_year, days_before_month, days_in_month,
    is_leap, MAXORDINAL. cbv zeta.
  intros (Hy & Hm & Hd).
  assert (Hlast : y = 9999 \/ y <= 9998) by lia.
  destruct (month_cases m Hm) as [->|[->|[->|[->|[->|[->|[->|[->|[->|[->|[->| ->]]]]]]]]]]];
    repeat match goal with
    | |- context [month_entry ?t ?k] =>
      let v := eval vm_compute in (month_entry t k) in change (month_entry t k) with v
    | H : context [month_entry ?t ?k] |- _ =>
      let v := eval vm_compute in (month_entry t k) in change (month_entry t k) with v in H
    end;
    cbn [Z.eqb Pos.eqb Z.ltb Z.compare Pos.compare Pos.compare_cont andb] in *;
    destruct (y mod 4 =? 0) eqn:H4; destruct (y mod 100 =? 0) eqn:H100;
    destruct (y mod 400 =? 0) eqn:H400; cbn [negb orb andb] in *;
    rewrite ?Z.eqb_eq, ?Z.eqb_neq in *;
    destruct Hlast as [->|Hlast]; Z.div_mod_to_equations; lia.
Qed.




(** The declared range of [days_back] lies within the calendar from the
    year 2 on. *)
Lemma declared_days_back_in_calendar (t : datetime) (n : Z) :
  valid_datetime t -> 2 <= year t -> 1 <= n <= 365 ->
  1 <= ymd2ord (year t) (month t) (day t) - n <= MAXORDINAL.
Proof.
  intros (Hy & Hm & Hd & _) Hy2 Hn.
  destruct (ymd2ord_bounds (year t) (month t) (day t)) as [Hb H366].
  { unfold valid_date. auto. }
  specialize (H366 Hy2). lia.
Qed.




(** On 3 November 2026 the lower bound is 4 October 2026 for 30 days, and
    27 October 2026 when [days_back] is omitted. *)
Lemma recent_search_dates :
  (handle_call_tool (py "search_recent_content") (recent_arguments (Some (PInt 30)))
     quiet_world).2 =
    [(py "k", search {| query := PStr (py "rust"); num_results := PInt 5;
                        start_published_date := Some (py "2026-10-04");
                        search_type := None; use_autoprompt := Some true |})]
  /\ (handle_call_tool (py "search_recent_content") (recent_arguments None) quiet_world).2 =
    [(py "k", search {| query := PStr (py "rust"); num_results := PInt 5;
                        start_published_date := Some (py "2026-10-27");
                        search_type := None; use_autoprompt := Some true |})].
Proof. split; vm_compute; reflexivity. Qed.

End Recent.

(** ** Decimal digits *)

Section Digits.
Import PyStr Float64.
Local Open Scope Z_scope.








End Digits.

(** ** The score formatter *)

Section Scores.
Import PyStr Float64 Py PyDate Server Vocabulary.
Local Open Scope Z_scope.






(** An integer beyond the range of a float makes the formatter raise: the
    [OverflowError] of [float] is not among the exceptions it catches. *)
Lemma huge_int_score_raises :
  safe_format_score (PInt (10 ^ 400)) =
    inl (Exn OverflowError (py "int too large to convert to float")).
Proof. vm_compute. reflexivity. Qed.

(** The three examples of the rule. *)
Lemma safe_format_score_examples :
  safe_format_score PNone = inr (py "N/A")
  /\ py_float (PStr (py "0.8234567")) = FloatOk (round_decimal false 8234567 (-7))
  /\ safe_format_score (PFloat (round_decimal false 8234567 (-7))) = inr (py "0.823")
  /\ safe_format_score (PStr (py "0.8234567")) = inr (py "0.823")
  /\ safe_format_score (PStr (py "high")) = inr (py "high").
Proof. repeat split; vm_compute; reflexivity. Qed.

End Scores.

(** ** Scores in the listings *)

Section Listings.
Import PyStr Float64 Py PyDate Server Vocabulary.
Local Open Scope Z_scope.

Lemma occurs_in_here (x post : pystr) : occurs_in x (x ++ post).
Proof. exists [], post. reflexivity. Qed.











End Listings.

Section ScoreRule.
Import PyStr Float64 Py PyDate Server Vocabulary.
Local Open Scope Z_scope.




End ScoreRule.

(** ** Requests sent to the service *)

Section Requests.
Import PyStr Py PyDate Server Vocabulary Scenarios.
Local Open Scope Z_scope.

Ltac eval_names :=
  repeat match goal with
  | |- context [eqb (py ?a) (py ?b)] =>
    let v := eval vm_compute in (eqb (py a) (py b)) in
    change (eqb (py a) (py b)) with v
  end; cbv iota.

(** With a credential, the requests of a call of the catalog are those of
    its handler: the dispatcher sends none of its own, also when it turns an
    exception of the handler into a response. *)
Lemma dispatch_sends (name : pystr) (h : Exa -> gmap pystr pyval -> M (list TextContent))
    (arguments : gmap pystr pyval) (w : World) (k : pystr) :
  List.In (name, h) handlers -> credential w = Some k ->
  (handle_call_tool name arguments w).2 = (h {| api_key := k |} arguments w).2.
Proof.
  intros Hin Hk.
  unfold handle_call_tool, try_except at 1. unfold bind at 1.
  rewrite (get_exa_client_present w k Hk).
  destruct Hin as [[= <- <-]|[[= <- <-]|[[= <- <-]|[[= <- <-]|[[= <- <-]|[]]]]]];
    eval_names;
    match goal with
    | |- context [?h {| api_key := k |} arguments w] =>
      destruct (h {| api_key := k |} arguments w) as [[e|l] t]
    end;
    cbn [fst snd app]; try reflexivity;
    destruct (exn_cls e); cbn [fst snd ret]; rewrite app_nil_r; reflexivity.
Qed.

(** What each handler sends: nothing when it raises before its request,
    and otherwise its one request, whatever the service answers. *)
Lemma search_web_semantic_sends (exa : Exa) (arguments : gmap pystr pyval) (w : World) :
  (_search_web_semantic exa arguments w).2 =
    match arguments !! py "query" with
    | Some q =>
      [(api_key exa,
        search {| query := q; num_results := get arguments (py "num_results") (PInt 5);
                  start_published_date := None; search_type := None;
                  use_autoprompt := Some true |})]
    | None => []
    end.
Proof.
  unfold _search_web_semantic, bind, lift, try_except, call, getitem.
  destruct (arguments !! py "query") as [q|]; [|reflexivity].
  cbn [fst snd]. destruct (exa_api w (api_key exa) _) as [e|[|r results]];
    try reflexivity.
  destruct (entries _ _ _ _) as [e|out]; reflexivity.
Qed.

Lemma extract_page_content_sends (exa : Exa) (arguments : gmap pystr pyval) (w : World) :
  (_extract_page_content exa arguments w).2 =
    match arguments !! py "url" with
    | Some u => [(api_key exa, get_contents [u] true)]
    | None => []
    end.
Proof.
  unfold _extract_page_content, bind, lift, try_except, call, getitem.
  destruct (arguments !! py "url") as [u|]; [|reflexivity].
  cbn [fst snd]. destruct (exa_api w (api_key exa) _) as [e|[|r results]]; reflexivity.
Qed.

Lemma find_similar_pages_sends (exa : Exa) (arguments : gmap pystr pyval) (w : World) :
  (_find_similar_pages exa arguments w).2 =
    match arguments !! py "url" with
    | Some u =>
      [(api_key exa, find_similar u (get arguments (py "num_results") (PInt 5)))]
    | None => []
    end.
Proof.
  unfold _find_similar_pages, bind, lift, try_except, call, getitem.
  destruct (arguments !! py "url") as [u|]; [|reflexivity].
  cbn [fst snd]. destruct (exa_api w (api_key exa) _) as [e|[|r results]];
    try reflexivity.
  destruct (entries _ _ _ _) as [e|out]; reflexivity.
Qed.

Lemma search_recent_content_trace (exa : Exa) (arguments : gmap pystr pyval) (w : World) :
  (_search_recent_content exa arguments w).2 =
    match arguments !! py "query" with
    | Some q =>
      match timedelta_days (get arguments (py "days_back") (PInt 7)) with
      | inr delta =>
        match datetime_sub (clock w) delta with
        | inr start =>
          [(api_key exa,
            search {| query := q;
                      num_results := get arguments (py "num_results") (PInt 5);
                      start_published_date := Some (strftime_Ymd start);
                      search_type := None; use_autoprompt := Some true |})]
        | inl _ => []
        end
      | inl _ => []
      end
    | None => []
    end.
Proof.
  unfold _search_recent_content, bind, lift, try_except, call, getitem, now.
  destruct (arguments !! py "query") as [q|]; [|reflexivity].
  cbn [fst snd]. destruct (timedelta_days _) as [e|delta]; [reflexivity|].
  cbn [fst snd]. destruct (datetime_sub _ _) as [e|start]; [reflexivity|].
  cbn [fst snd]. destruct (exa_api w (api_key exa) _) as [e|[|r results]];
    try reflexivity.
  destruct (entries _ _ _ _) as [e|out]; reflexivity.
Qed.

Lemma search_by_example_text_sends (exa : Exa) (arguments : gmap pystr pyval) (w : World) :
  (_search_by_example_text exa arguments w).2 =
    match arguments !! py "text" with
    | Some (PStr t) =>
      [(api_key exa,
        search {| query := PStr t;
                  num_results := get arguments (py "num_results") (PInt 5);
                  start_published_date := None; search_type := Some (py "neural");
                  use_autoprompt := Some false |})]
    | _ => []
    end.
Proof.
  unfold _search_by_example_text, bind, lift, try_except, call, getitem.
  destruct (arguments !! py "text") as [[| | | |t]|]; try reflexivity.
  cbn [fst snd py_len py_slice_to py_str].
  destruct (exa_api w (api_key exa) _) as [e|[|r results]]; try reflexivity.
  destruct (200 <? len t); cbn [fst snd ret];
    destruct (entries _ _ _ _) as [e|out]; reflexivity.
Qed.





(** X3: whatever the name, the arguments and the world, a call sends at
    most one request to the service, and a request it sends carries the key
    of the environment. *)
Theorem at_most_one_request (name : pystr) (arguments : gmap pystr pyval) (w : World) :
  (handle_call_tool name arguments w).2 = []
  \/ exists k req,
       credential w = Some k /\ (handle_call_tool name arguments w).2 = [(k, req)].
Proof.
  destruct (credential w) as [k|] eqn:Hk.
  2: { left. rewrite (call_without_credential name arguments w Hk). reflexivity. }
  destruct (in_dec (fun x y : list N => decide (x = y)) name tool_names) as [Hn|Hn].
  2: { left. rewrite (call_outside_catalog name arguments w k Hk Hn). reflexivity. }
  rewrite tool_names_eq in Hn.
  destruct Hn as [<-|[<-|[<-|[<-|[<-|[]]]]]].
  - rewrite (dispatch_sends _ _search_web_semantic arguments w k) by (left; reflexivity) || exact Hk.
    rewrite search_web_semantic_sends.
    destruct (arguments !! py "query"); [right; eauto | left; reflexivity].
  - rewrite (dispatch_sends _ _extract_page_content arguments w k)
      by (right; left; reflexivity) || exact Hk.
    rewrite extract_page_content_sends.
    destruct (arguments !! py "url"); [right; eauto | left; reflexivity].
  - rewrite (dispatch_sends _ _find_similar_pages arguments w k)
      by (do 2 right; left; reflexivity) || exact Hk.
    rewrite find_similar_pages_sends.
    destruct (arguments !! py "url"); [right; eauto | left; reflexivity].
  - rewrite (dispatch_sends _ _search_recent_content arguments w k)
      by (do 3 right; left; reflexivity) || exact Hk.
    rewrite search_recent_content_trace.
    destruct (arguments !! py "query"); [|left; reflexivity].
    destruct (timedelta_days _); [left; reflexivity|].
    destruct (datetime_sub _ _); [left; reflexivity | right; eauto].
  - rewrite (dispatch_sends _ _search_by_example_text arguments w k)
      by (do 4 right; left; reflexivity) || exact Hk.
    rewrite search_by_example_text_sends.
    destruct (arguments !! py "text") as [[| | | |t]|]; try (left; reflexivity).
    right; eauto.
Qed.



End Requests.

(** ** What a call reads *)

Section Reads.
Import PyStr Py PyDate Server Vocabulary Scenarios.
Local Open Scope Z_scope.

Ltac eval_names :=
  repeat match goal with
  | |- context [eqb (py ?a) (py ?b)] =>
    let v := eval vm_compute in (eqb (py a) (py b)) in
    change (eqb (py a) (py b)) with v
  end; cbv iota.

(** Each handler reads its arguments through the lookups of its first
    lines only. *)
Lemma search_web_semantic_reads (exa : Exa) (a a' : gmap pystr pyval) :
  a !! py "query" = a' !! py "query" ->
  get a (py "num_results") (PInt 5) = get a' (py "num_results") (PInt 5) ->
  _search_web_semantic exa a = _search_web_semantic exa a'.
Proof.
  intros H1 H2. unfold _search_web_semantic, getitem. rewrite H1, H2. reflexivity.
Qed.

Lemma extract_page_content_reads (exa : Exa) (a a' : gmap pystr pyval) :
  a !! py "url" = a' !! py "url" ->
  _extract_page_content exa a = _extract_page_content exa a'.
Proof. intros H1. unfold _extract_page_content, getitem. rewrite H1. reflexivity. Qed.

Lemma find_similar_pages_reads (exa : Exa) (a a' : gmap pystr pyval) :
  a !! py "url" = a' !! py "url" ->
  get a (py "num_results") (PInt 5) = get a' (py "num_results") (PInt 5) ->
  _find_similar_pages exa a = _find_similar_pages exa a'.
Proof.
  intros H1 H2. unfold _find_similar_pages, getitem. rewrite H1, H2. reflexivity.
Qed.

Lemma search_recent_content_reads (exa : Exa) (a a' : gmap pystr pyval) :
  a !! py "query" = a' !! py "query" ->
  get a (py "days_back") (PInt 7) = get a' (py "days_back") (PInt 7) ->
  get a (py "num_results") (PInt 5) = get a' (py "num_results") (PInt 5) ->
  _search_recent_content exa a = _search_recent_content exa a'.
Proof.
  intros H1 H2 H3. unfold _search_recent_content, getitem. rewrite H1, H2, H3.
  reflexivity.
Qed.

Lemma search_by_example_text_reads (exa : Exa) (a a' : gmap pystr pyval) :
  a !! py "text" = a' !! py "text" ->
  get a (py "num_results") (PInt 5) = get a' (py "num_results") (PInt 5) ->
  _search_by_example_text exa a = _search_by_example_text exa a'.
Proof.
  intros H1 H2. unfold _search_by_example_text, getitem. rewrite H1, H2. reflexivity.
Qed.

(** A parameter declared as a string is read as the argument; one declared
    as an integer with a default, as the argument or that default. *)
Lemma read_string (a : gmap pystr pyval) (p : pystr) :
  read_parameter string_property a p = a !! p.
Proof. unfold read_parameter. destruct (a !! p); reflexivity. Qed.

Lemma read_integer (a a' : gmap pystr pyval) (p : pystr) (d lo hi : Z) :
  read_parameter (integer_property d lo hi) a p
    = read_parameter (integer_property d lo hi) a' p ->
  get a p (PInt d) = get a' p (PInt d).
Proof.
  unfold read_parameter, get.
  destruct (a !! p), (a' !! p); simpl; congruence.
Qed.

(** Two argument mappings that give the declared parameters of a tool the
    same values get the same answer and send the same request. *)
Lemma call_same_parameters (t : Tool) (a a' : gmap pystr pyval) (w : World) :
  List.In t handle_list_tools -> same_parameters t a a' ->
  handle_call_tool (name t) a w = handle_call_tool (name t) a' w.
Proof.
  intros Ht Hs. unfold same_parameters in Hs.
  destruct Ht as [<-|[<-|[<-|[<-|[<-|[]]]]]];
    cbn [properties inputSchema name] in Hs |- *;
    repeat match goal with
    | H : Forall _ (_ :: _) |- _ =>
      let H1 := fresh "Hp" in apply Forall_cons in H as [H1 H]; cbn [fst snd] in H1
    end;
    repeat match goal with
    | H : read_parameter string_property _ _ = _ |- _ => rewrite !read_string in H
    | H : read_parameter (integer_property _ _ _) _ _ = _ |- _ => apply read_integer in H
    end;
    unfold handle_call_tool, try_except at 1 2; unfold bind at 1 2;
    (destruct (get_exa_client w) as [[e|exa] tr]; [reflexivity|]); eval_names.
  - rewrite (search_web_semantic_reads _ a a') by assumption. reflexivity.
  - rewrite (extract_page_content_reads _ a a') by assumption. reflexivity.
  - rewrite (find_similar_pages_reads _ a a') by assumption. reflexivity.
  - rewrite (search_recent_content_reads _ a a') by assumption. reflexivity.
  - rewrite (search_by_example_text_reads _ a a') by assumption. reflexivity.
Qed.

(** Within one tool of the catalog, a parameter is declared once. *)
Lemma declared_once (t : Tool) (p : pystr) (prop prop' : Property) :
  List.In t handle_list_tools ->
  List.In (p, prop) (properties (inputSchema t)) ->
  List.In (p, prop') (properties (inputSchema t)) -> prop = prop'.
Proof.
  intros Ht H1 H2.
  destruct Ht as [<-|[<-|[<-|[<-|[<-|[]]]]]]; cbn [properties inputSchema] in H1, H2;
    repeat match goal with
    | H : List.In _ (_ :: _) |- _ => destruct H as [H|H]
    | H : List.In _ [] |- _ => destruct H
    end;
    match goal with
    | H1 : (?a, _) = (p, prop), H2 : (?c, _) = (p, prop') |- _ =>
      first [ congruence
            | exfalso; assert (E : a = c) by congruence; vm_compute in E; discriminate E ]
    end.
Qed.

(** X5: leaving out a parameter for which the catalog declares a default
    is the same as passing that default: the response and the request are
    those of the call with the default written out. *)
Theorem declared_default_applied (t : Tool) (p : pystr) (prop : Property) (d : Z)
    (arguments : gmap pystr pyval) (w : World) :
  List.In t handle_list_tools ->
  List.In (p, prop) (properties (inputSchema t)) -> prop_default prop = Some d ->
  arguments !! p = None ->
  handle_call_tool (name t) arguments w =
    handle_call_tool (name t) (<[ p := PInt d ]> arguments) w.
Proof.
  intros Ht Hp Hd Hnone. apply call_same_parameters; [exact Ht|].
  unfold same_parameters. apply Forall_forall. intros [p' prop'] Hin. cbn [fst snd].
  unfold read_parameter. destruct (decide (p = p')) as [<-|Hne].
  - rewrite lookup_insert_eq, Hnone.
    rewrite <- (declared_once t p prop prop' Ht Hp). 2: { apply list_elem_of_In, Hin. }
    rewrite Hd. reflexivity.
  - rewrite lookup_insert_ne by exact Hne. reflexivity.
Qed.

(** The theorem of X5: a semantic search without [num_results] is the
    search for 5 results. *)
Lemma declared_default_witness :
  handle_call_tool (name semantic_tool) sample_arguments listing_world =
    handle_call_tool (name semantic_tool)
      (<[ py "num_results" := PInt 5 ]> sample_arguments) listing_world.
Proof.
  apply (declared_default_applied semantic_tool (py "num_results")
           (integer_property 5 1 20) 5 sample_arguments listing_world).
  - left. reflexivity.
  - right. left. reflexivity.
  - reflexivity.
  - reflexivity.
Defined.



(** The client is built from the credential variable alone. *)
Lemma get_exa_client_observes (w w' : World) :
  Server.environ w !! py "EXA_API_KEY" = Server.environ w' !! py "EXA_API_KEY" ->
  get_exa_client w = get_exa_client w'.
Proof.
  intros H. unfold get_exa_client, bind, getenv. rewrite H.
  destruct (Server.environ w' !! py "EXA_API_KEY") as [k|]; [destruct (truthy k)|];
    reflexivity.
Qed.

(** What each handler observes of the world: the answers of the service,
    and for the recent-content search the clock. *)
Lemma search_web_semantic_observes (exa : Exa) (a : gmap pystr pyval) (w w' : World) :
  (forall k req, Server.exa_api w k req = Server.exa_api w' k req) ->
  _search_web_semantic exa a w = _search_web_semantic exa a w'.
Proof.
  intros Hapi. unfold _search_web_semantic, bind, lift, try_except, call.
  destruct (getitem a (py "query")) as [e|q]; [reflexivity|].
  cbn [fst snd]. rewrite Hapi.
  destruct (Server.exa_api w' _ _) as [e|[|r results]]; reflexivity.
Qed.

Lemma extract_page_content_observes (exa : Exa) (a : gmap pystr pyval) (w w' : World) :
  (forall k req, Server.exa_api w k req = Server.exa_api w' k req) ->
  _extract_page_content exa a w = _extract_page_content exa a w'.
Proof.
  intros Hapi. unfold _extract_page_content, bind, lift, try_except, call.
  destruct (getitem a (py "url")) as [e|u]; [reflexivity|].
  cbn [fst snd]. rewrite Hapi.
  destruct (Server.exa_api w' _ _) as [e|[|r results]]; reflexivity.
Qed.

Lemma find_similar_pages_observes (exa : Exa) (a : gmap pystr pyval) (w w' : World) :
  (forall k req, Server.exa_api w k req = Server.exa_api w' k req) ->
  _find_similar_pages exa a w = _find_similar_pages exa a w'.
Proof.
  intros Hapi. unfold _find_similar_pages, bind, lift, try_except, call.
  destruct (getitem a (py "url")) as [e|u]; [reflexivity|].
  cbn [fst snd]. rewrite Hapi.
  destruct (Server.exa_api w' _ _) as [e|[|r results]]; reflexivity.
Qed.

Lemma search_recent_content_observes (exa : Exa) (a : gmap pystr pyval) (w w' : World) :
  (forall k req, Server.exa_api w k req = Server.exa_api w' k req) ->
  clock w = clock w' ->
  _search_recent_content exa a w = _search_recent_content exa a w'.
Proof.
  intros Hapi Hclock. unfold _search_recent_content, bind, lift, try_except, call, now.
  destruct (getitem a (py "query")) as [e|q]; [reflexivity|].
  cbn [fst snd]. rewrite Hclock.
  destruct (timedelta_days _) as [e|delta]; [reflexivity|].
  cbn [fst snd]. destruct (datetime_sub _ _) as [e|start]; [reflexivity|].
  cbn [fst snd]. rewrite Hapi.
  destruct (Server.exa_api w' _ _) as [e|[|r results]]; reflexivity.
Qed.

Lemma search_by_example_text_observes (exa : Exa) (a : gmap pystr pyval) (w w' : World) :
  (forall k req, Server.exa_api w k req = Server.exa_api w' k req) ->
  _search_by_example_text exa a w = _search_by_example_text exa a w'.
Proof.
  intros Hapi. unfold _search_by_example_text, bind, lift, try_except, call.
  destruct (getitem a (py "text")) as [e|t]; [reflexivity|].
  cbn [fst snd]. destruct (py_len t) as [e|n]; [reflexivity|].
  cbn [fst snd]. rewrite Hapi.
  destruct (Server.exa_api w' _ _) as [e|[|r results]]; try reflexivity.
  destruct (200 <? n); reflexivity.
Qed.

(** X7: a call observes the world through three things only: the
    credential variable of the environment, the answers of the service and,
    for the recent-content search alone, the clock.  Two worlds that agree
    on them give the same response and the same requests. *)
Theorem call_observes (name : pystr) (arguments : gmap pystr pyval) (w w' : World) :
  Server.environ w !! py "EXA_API_KEY" = Server.environ w' !! py "EXA_API_KEY" ->
  (forall k req, Server.exa_api w k req = Server.exa_api w' k req) ->
  (name = py "search_recent_content" -> clock w = clock w') ->
  handle_call_tool name arguments w = handle_call_tool name arguments w'.
Proof.
  intros Henv Hapi Hclock.
  assert (Hbody : forall body body' : M (list TextContent),
            body w = body' w' ->
            try_except body
              (fun e =>
                 match exn_cls e with
                 | ValueError =>
                   ret [ {| type := py "text";
                            text := py "Configuration Error: " ++ exn_str e |} ]
                 | _ =>
                   ret [ {| type := py "text";
                            text := py "Error in " ++ name ++ py ": " ++ exn_str e |} ]
                 end) w =
            try_except body'
              (fun e =>
                 match exn_cls e with
                 | ValueError =>
                   ret [ {| type := py "text";
                            text := py "Configuration Error: " ++ exn_str e |} ]
                 | _ =>
                   ret [ {| type := py "text";
                            text := py "Error in " ++ name ++ py ": " ++ exn_str e |} ]
                 end) w').
  { intros body body' Hb. unfold try_except. rewrite Hb.
    destruct (body' w') as [[e|l] t]; [destruct (exn_cls e)|]; reflexivity. }
  unfold handle_call_tool. apply Hbody.
  unfold bind at 1 2. rewrite (get_exa_client_observes w w' Henv).
  destruct (get_exa_client w') as [[e|exa] t]; [reflexivity|].
  destruct (eqb name (py "search_web_semantic")).
  { rewrite (search_web_semantic_observes exa arguments w w' Hapi). reflexivity. }
  destruct (eqb name (py "extract_page_content")).
  { rewrite (extract_page_content_observes exa arguments w w' Hapi). reflexivity. }
  destruct (eqb name (py "find_similar_pages")).
  { rewrite (find_similar_pages_observes exa arguments w w' Hapi). reflexivity. }
  destruct (eqb name (py "search_recent_content")) eqn:Hname.
  { apply eqb_eq in Hname.
    rewrite (search_recent_content_observes exa arguments w w' Hapi (Hclock Hname)).
    reflexivity. }
  destruct (eqb name (py "search_by_example_text")).
  { rewrite (search_by_example_text_observes exa arguments w w' Hapi). reflexivity. }
  reflexivity.
Qed.

(** The theorem of X7: a semantic search at another time, in a larger
    environment. *)
Lemma call_observes_witness :
  handle_call_tool (py "search_web_semantic") sample_arguments quiet_world =
    handle_call_tool (py "search_web_semantic") sample_arguments elsewhere.
Proof.
  apply (call_observes (py "search_web_semantic") sample_arguments quiet_world elsewhere).
  - vm_compute. reflexivity.
  - intros k req. reflexivity.
  - intros H. exfalso. vm_compute in H. discriminate H.
Defined.

End Reads.

(** ** The listings *)

Section ListingLayout.
Import PyStr Py PyDate Server Vocabulary Scenarios.
Local Open Scope Z_scope.





(** A result list passed through a map that keeps what a listing shows
    gives the same listing. *)
Lemma entries_map (g : Result -> Result) (line : pystr) (results : list Result) :
  (forall r, r_title (g r) = r_title r /\ r_url (g r) = r_url r /\
             r_score (g r) = r_score r /\ shown_date (g r) = shown_date r) ->
  forall i response,
    entries line i (map g results) response = entries line i results response.
Proof.
  intros Hg. induction results as [|r rest IH]; intros i response; [reflexivity|].
  destruct (Hg r) as (Ht & Hu & Hs & Hd). unfold shown_date in Hd.
  cbn [map entries]. unfold safe_get_attr. rewrite Ht, Hu, Hs.
  destruct (safe_format_score (r_score r)) as [e|s]; [reflexivity|].
  destruct (r_published_date (g r)) as [d'|], (r_published_date r) as [d|];
    try destruct (truthy d'); try destruct (truthy d);
    try discriminate Hd; try (injection Hd as ->); apply IH.
Qed.












(** X21: the loop of a listing composes: listing two result lists one
    after the other is listing the first and then, from the response so far
    and the next number, the second; the error of a score of the first list
    stops the second from being listed. *)
Theorem entries_app (line : pystr) (l1 l2 : list Result) (i : Z) (response : pystr) :
  entries line i (l1 ++ l2) response =
    match entries line i l1 response with
    | inr out => entries line (i + Z.of_nat (length l1)) l2 out
    | inl e => inl e
    end.
Proof.
  revert i response. induction l1 as [|r l1 IH]; intros i response.
  - cbn [app entries length]. change (Z.of_nat 0) with 0. rewrite Z.add_0_r.
    reflexivity.
  - cbn [app entries length].
    destruct (safe_format_score (r_score r)) as [e|s]; [reflexivity|].
    rewrite IH. replace (i + 1 + Z.of_nat (length l1)) with (i + Z.of_nat (S (length l1)))
      by lia.
    reflexivity.
Qed.



End ListingLayout.

(** ** What the responses show *)

Section Shows.
Import PyStr Py PyDate Server Vocabulary Scenarios.
Local Open Scope Z_scope.

(** Two worlds in which the client is built alike and the handler of the
    name returns alike get the same answer from the dispatcher. *)
Lemma call_congruence (name : pystr) (a : gmap pystr pyval) (w w' : World) :
  get_exa_client w = get_exa_client w' ->
  (forall exa h, List.In (name, h) handlers -> h exa a w = h exa a w') ->
  handle_call_tool name a w = handle_call_tool name a w'.
Proof.
  intros Hc Hh.
  assert (Hbody : forall body body' : M (list TextContent),
            body w = body' w' ->
            try_except body
              (fun e =>
                 match exn_cls e with
                 | ValueError =>
                   ret [ {| type := py "text";
                            text := py "Configuration Error: " ++ exn_str e |} ]
                 | _ =>
                   ret [ {| type := py "text";
                            text := py "Error in " ++ name ++ py ": " ++ exn_str e |} ]
                 end) w =
            try_except body'
              (fun e =>
                 match exn_cls e with
                 | ValueError =>
                   ret [ {| type := py "text";
                            text := py "Configuration Error: " ++ exn_str e |} ]
                 | _ =>
                   ret [ {| type := py "text";
                            text := py "Error in " ++ name ++ py ": " ++ exn_str e |} ]
                 end) w').
  { intros body body' Hb. unfold try_except. rewrite Hb.
    destruct (body' w') as [[e|l] t]; [destruct (exn_cls e)|]; reflexivity. }
  unfold handle_call_tool. apply Hbody.
  unfold bind at 1 2. rewrite Hc.
  destruct (get_exa_client w') as [[e|exa] t]; [reflexivity|].
  destruct (eqb name (py "search_web_semantic")) eqn:H1.
  { apply eqb_eq in H1. subst name.
    rewrite (Hh exa _search_web_semantic) by (left; reflexivity). reflexivity. }
  destruct (eqb name (py "extract_page_content")) eqn:H2.
  { apply eqb_eq in H2. subst name.
    rewrite (Hh exa _extract_page_content) by (right; left; reflexivity). reflexivity. }
  destruct (eqb name (py "find_similar_pages")) eqn:H3.
  { apply eqb_eq in H3. subst name.
    rewrite (Hh exa _find_similar_pages) by (do 2 right; left; reflexivity).
    reflexivity. }
  destruct (eqb name (py "search_recent_content")) eqn:H4.
  { apply eqb_eq in H4. subst name.
    rewrite (Hh exa _search_recent_content) by (do 3 right; left; reflexivity).
    reflexivity. }
  destruct (eqb name (py "search_by_example_text")) eqn:H5.
  { apply eqb_eq in H5. subst name.
    rewrite (Hh exa _search_by_example_text) by (do 4 right; left; reflexivity).
    reflexivity. }
  reflexivity.
Qed.

(** The listing handlers on results passed through a map that keeps what
    a listing shows. *)
Section KeptFields.
Variable g : Result -> Result.
Hypothesis Hg :
  forall r, r_title (g r) = r_title r /\ r_url (g r) = r_url r /\
            r_score (g r) = r_score r /\ shown_date (g r) = shown_date r.

Ltac same_listing :=
  cbn [fst snd Server.exa_api with_results clock];
  match goal with
  | |- context [Server.exa_api ?w ?k ?req] =>
    destruct (Server.exa_api w k req) as [?|[|? ?]]; try reflexivity
  end;
  cbn [map];
  lazymatch goal with
  | |- context [g ?r :: map g ?rs] =>
    change (g r :: map g rs) with (map g (r :: rs));
    rewrite (entries_map g _ (r :: rs) Hg), length_map; reflexivity
  end.

Lemma search_web_semantic_kept (exa : Exa) (a : gmap pystr pyval) (w : World) :
  _search_web_semantic exa a (with_results (map g) w) = _search_web_semantic exa a w.
Proof using Hg.
  unfold _search_web_semantic, bind, lift, try_except, call.
  destruct (getitem a (py "query")) as [e|q]; [reflexivity|]. same_listing.
Qed.

Lemma find_similar_pages_kept (exa : Exa) (a : gmap pystr pyval) (w : World) :
  _find_similar_pages exa a (with_results (map g) w) = _find_similar_pages exa a w.
Proof using Hg.
  unfold _find_similar_pages, bind, lift, try_except, call.
  destruct (getitem a (py "url")) as [e|u]; [reflexivity|]. same_listing.
Qed.

Lemma search_recent_content_kept (exa : Exa) (a : gmap pystr pyval) (w : World) :
  _search_recent_content exa a (with_results (map g) w) = _search_recent_content exa a w.
Proof using Hg.
  unfold _search_recent_content, bind, lift, try_except, call, now.
  destruct (getitem a (py "query")) as [e|q]; [reflexivity|].
  cbn [fst snd clock with_results].
  destruct (timedelta_days _) as [e|delta]; [reflexivity|].
  cbn [fst snd]. destruct (datetime_sub _ _) as [e|start]; [reflexivity|].
  same_listing.
Qed.

Lemma search_by_example_text_kept (exa : Exa) (a : gmap pystr pyval) (w : World) :
  _search_by_example_text exa a (with_results (map g) w) =
    _search_by_example_text exa a w.
Proof using Hg.
  unfold _search_by_example_text, bind, lift, try_except, call.
  destruct (getitem a (py "text")) as [e|t]; [reflexivity|].
  cbn [fst snd]. destruct (py_len t) as [e|n]; [reflexivity|].
  cbn [fst snd Server.exa_api with_results].
  destruct (Server.exa_api w _ _) as [e|[|r results]]; try reflexivity.
  cbn [map]. change (g r :: map g results) with (map g (r :: results)).
  destruct (200 <? n); cbn [fst snd ret];
    [destruct (py_slice_to 200 t) as [e|hd]; [reflexivity|]; cbn [fst snd]|];
    rewrite (entries_map g _ (r :: results) Hg), length_map; reflexivity.
Qed.

End KeptFields.

(** X10: the four listing tools show of a result its title, its URL, its
    score and its date, a date only if it is not empty, and nothing else:
    passing the results of the service through any map that keeps these
    changes neither the response nor the request.  In particular the text of
    a result is never shown, and an empty date is the same as none. *)
Theorem listing_shows (g : Result -> Result) (name : pystr) (a : gmap pystr pyval)
    (w : World) :
  (forall r, r_title (g r) = r_title r /\ r_url (g r) = r_url r /\
             r_score (g r) = r_score r /\ shown_date (g r) = shown_date r) ->
  name <> py "extract_page_content" ->
  handle_call_tool name a (with_results (map g) w) = handle_call_tool name a w.
Proof.
  intros Hg Hname. apply call_congruence; [apply get_exa_client_observes; reflexivity|].
  intros exa h [[= <- <-]|[[= Hn _]|[[= <- <-]|[[= <- <-]|[[= <- <-]|[]]]]]].
  - apply search_web_semantic_kept, Hg.
  - exfalso. apply Hname. symmetry. exact Hn.
  - apply find_similar_pages_kept, Hg.
  - apply search_recent_content_kept, Hg.
  - apply search_by_example_text_kept, Hg.
Qed.

(** The theorem of X10: results given a text, their empty dates dropped,
    are listed as before. *)
Lemma listing_shows_witness :
  handle_call_tool (py "search_web_semantic") sample_arguments
    (with_results (map retouched) listing_world)
  = handle_call_tool (py "search_web_semantic") sample_arguments listing_world.
Proof.
  apply (listing_shows retouched (py "search_web_semantic") sample_arguments
           listing_world).
  - intros r. repeat split. unfold retouched. unfold shown_date.
    cbn [r_published_date]. unfold shown_date.
    destruct (r_published_date r) as [[|c d]|]; reflexivity.
  - intros H. vm_compute in H. discriminate H.
Defined.

End Shows.

(** ** The extraction, the preview and the day count *)

Section Extraction.
Import PyStr Py PyDate Server Vocabulary Scenarios.
Local Open Scope Z_scope.

(** The extraction handler on result lists passed through a map that keeps
    the URL, the title and the text of the first result. *)
Lemma extract_page_content_kept (f : list Result -> list Result) (exa : Exa)
    (a : gmap pystr pyval) (w : World) :
  f [] = [] ->
  (forall c rest, exists c' rest',
     f (c :: rest) = c' :: rest' /\
     r_url c' = r_url c /\ r_title c' = r_title c /\ r_text c' = r_text c) ->
  _extract_page_content exa a (with_results f w) = _extract_page_content exa a w.
Proof.
  intros Hnil Hcons. unfold _extract_page_content, bind, lift, try_except, call.
  destruct (getitem a (py "url")) as [e|u]; [reflexivity|].
  cbn [fst snd Server.exa_api with_results].
  destruct (Server.exa_api w _ _) as [e|[|c rest]]; [reflexivity| |].
  - rewrite Hnil. reflexivity.
  - destruct (Hcons c rest) as (c' & rest' & -> & Hu & Ht & Hx).
    unfold safe_get_attr. rewrite Hu, Ht, Hx. reflexivity.
Qed.

(** X11: the extraction shows the first result only, and of it the URL,
    the title and the text: passing the results of the service through any
    map that keeps these three of the first result, and lets an empty list
    empty, changes neither the response nor the request.  Further results,
    the score and the date are never read. *)
Theorem extraction_reads_first_page (f : list Result -> list Result)
    (a : gmap pystr pyval) (w : World) :
  f [] = [] ->
  (forall c rest, exists c' rest',
     f (c :: rest) = c' :: rest' /\
     r_url c' = r_url c /\ r_title c' = r_title c /\ r_text c' = r_text c) ->
  handle_call_tool (py "extract_page_content") a (with_results f w) =
    handle_call_tool (py "extract_page_content") a w.
Proof.
  intros Hnil Hcons. apply call_congruence; [apply get_exa_client_observes; reflexivity|].
  intros exa h [[= H _]|[[= <-]|[[= H _]|[[= H _]|[[= H _]|[]]]]]];
    try (exfalso; vm_compute in H; discriminate H).
  apply extract_page_content_kept; assumption.
Qed.

(** The theorem of X11: the first page alone, without score and date. *)
Lemma extraction_reads_first_page_witness :
  handle_call_tool (py "extract_page_content") sample_arguments
    (with_results first_page listing_world) =
  handle_call_tool (py "extract_page_content") sample_arguments listing_world.
Proof.
  apply (extraction_reads_first_page first_page sample_arguments listing_world).
  - reflexivity.
  - intros c rest. do 2 eexists. split; [reflexivity|]. repeat split.
Defined.







End Extraction.

Section Preview.
Import PyStr Py PyDate Server Vocabulary Scenarios.
Local Open Scope Z_scope.





End Preview.

(** ** The tag of the configuration error *)

Section Configured.
Import PyStr Py PyDate Server Vocabulary Scenarios.
Local Open Scope Z_scope.












End Configured.

(** ** The entry point and the counters of the test suite *)

Section EntryPoint.
Import PyStr Py PyDate Server Vocabulary Scenarios.

(** X17: the server checks the key before it opens the transport.
    Without a usable key [main] returns without raising and without
    entering the loop of the library, whatever that loop would do; with a
    key it enters the loop, and what the loop sends and raises is what
    [main] sends and raises. *)
Theorem main_requires_credential (run : M unit) (w : World) :
  (credential w = None -> main run w = (inr false, []))
  /\ (forall k, credential w = Some k ->
        main run w =
          (match (run w).1 with inr _ => inr true | inl e => inl e end, (run w).2)).
Proof.
  split.
  - intros Hk. unfold main, bind at 1, try_except, bind at 1.
    rewrite (get_exa_client_absent w Hk). reflexivity.
  - intros k Hk. unfold main, bind at 1, try_except, bind at 1.
    rewrite (get_exa_client_present w k Hk). cbn [fst snd ret app].
    unfold bind. destruct (run w) as [[e|[]] t]; cbn [fst snd ret app];
      rewrite ?app_nil_r; reflexivity.
Qed.

End EntryPoint.

Section Counters.
Import PyStr Py Server TestConnection.
Local Open Scope Z_scope.


(** X19: the two counters of the test loop never run apart: over any list
    of tests, from any index on, the count of critical passes grows by no
    more than the count of passes, which grows by no more than the number of
    tests run, and by no more than the number of critical tests left. *)
Theorem run_loop_counts (env : Env) (tests : list (pystr * T bool))
    (i passed critical_passed : Z) :
  0 <= i ->
  critical_passed <= (run_loop env i tests passed critical_passed).2
  /\ (run_loop env i tests passed critical_passed).2 - critical_passed
     <= (run_loop env i tests passed critical_passed).1 - passed
  /\ (run_loop env i tests passed critical_passed).1 - passed <= Z.of_nat (length tests)
  /\ (run_loop env i tests passed critical_passed).2 - critical_passed
     <= Z.max 0 (critical_tests - i).
Proof.
  revert i passed critical_passed.
  induction tests as [|[test_name test_func] rest IH]; intros i p c Hi.
  - cbn [run_loop fst snd length]. unfold critical_tests. lia.
  - cbn [run_loop length]. unfold critical_tests in *.
    destruct (test_func env) as [e|[|]].
    + specialize (IH (i + 1) p c ltac:(lia)). lia.
    + destruct (Z.ltb_spec i 4).
      * specialize (IH (i + 1) (p + 1) (c + 1) ltac:(lia)). lia.
      * specialize (IH (i + 1) (p + 1) c ltac:(lia)). lia.
    + specialize (IH (i + 1) p c ltac:(lia)). lia.
Qed.

(** The theorem of X19 for the seven tests of the script, in an
    environment where everything works. *)
Lemma run_loop_counts_witness :
  0 <= (run_loop Scenarios.working_env 0 tests 0 0).2
  /\ (run_loop Scenarios.working_env 0 tests 0 0).2 - 0
     <= (run_loop Scenarios.working_env 0 tests 0 0).1 - 0
  /\ (run_loop Scenarios.working_env 0 tests 0 0).1 - 0 <= Z.of_nat (length tests)
  /\ (run_loop Scenarios.working_env 0 tests 0 0).2 - 0 <= Z.max 0 (critical_tests - 0).
Proof.
  apply (run_loop_counts Scenarios.working_env tests 0 0 0). lia.
Defined.

End Counters.
